(** * kevlar / mutsim: the deletion mutator

    A shallow embedding of [notebook/mutsim/src/del.cpp]: the sliding-window
    loop [MutatorDel::process], the per-event constructor
    [MutatorDel::Deletion::Deletion], the diagram printer
    [MutatorDel::Deletion::print] and the accessor
    [MutatorDel::get_mut_count].

    Conventions.
    - [uint] and [ulong] values are integers in [Z]; every C++ operation on
      them is followed by its reduction modulo [2^32] or [2^64].
    - [std::string] is [string]; [substr] returns [None] where the C++ call
      throws [std::out_of_range].
    - A failing [assert] and an exception end the computation with [Err].
    - The loop of [process] is a fixpoint over a fuel that [process] sets to
      one more than the sequence length; [None] means the fuel ran out. *)

From Stdlib Require Import ZArith String Ascii List Lia Bool DecimalString.
From stdpp Require Import base gmultiset.
Import ListNotations.
Local Open Scope Z_scope.

(** ** Machine integers *)

Definition uint (z : Z) : Z := z mod 2 ^ 32.
Definition ulong (z : Z) : Z := z mod 2 ^ 64.

(** The values a [uint] and a [ulong] can hold. *)
Definition is_uint (z : Z) : Prop := 0 <= z < 2 ^ 32.
Definition is_ulong (z : Z) : Prop := 0 <= z < 2 ^ 64.

(** ** Strings and streams *)

Definition strlen (s : string) : Z := Z.of_nat (String.length s).

(** A bound on [std::string::max_size()]: on a 64-bit target no string has
    more than [PTRDIFF_MAX = 2^63 - 1] characters. *)
Definition string_max_size : Z := 2 ^ 63 - 1.

(** [s.substr(pos, len)]: throws when [pos > s.size()], otherwise the
    characters from [pos] on, at most [len] of them. *)
Definition substr (s : string) (pos len : Z) : option string :=
  if strlen s <? pos then None
  else Some (substring (Z.to_nat pos) (Z.to_nat len) s).

Definition nl : string := String "010"%char EmptyString.

(** [stream << value] for an unsigned value: its decimal digits. *)
Definition show_uint (z : Z) : string :=
  NilEmpty.string_of_uint (N.to_uint (Z.to_N z)).

(** What a run ends with when it does not return: one of the two
    assertions of del.cpp (line 29, on the size of the junction string, and
    line 52, on the number of k-mers) fails, or [substr] throws. *)
Inductive exn : Type :=
| DelseqSizeAssertion
| KmerCountAssertion
| OutOfRange.

Inductive result (A : Type) : Type :=
| Ok (a : A)
| Err (e : exn).
Arguments Ok {A} a.
Arguments Err {A} e.

(** ** Collaborators that are not part of del.cpp *)

(** Modelled from the spec: the histogram accumulator ([Histogram], whose
    header is not among the sources) is a "mapping from abundance value to
    occurrence count" that "supports incrementing a bucket by integer
    value": a finite multiset of the values recorded so far. *)
Abbreviation Histogram := (gmultiset Z).

Definition hist_increment (value : Z) (h : Histogram) : Histogram :=
  h ⊎ {[+ value +]}.

Definition hist_count (h : Histogram) (value : Z) : Z :=
  Z.of_nat (multiplicity value h).

(** Modelled from the spec: the counting table ([Counttable], an external
    library type). [get_kmers] is "extractKmers(sequence) -> ordered
    sequence of k-mer strings, length = sequence.length - k + 1", a sliding
    window of the table's own k-mer size with stride 1; [get_count] is
    "lookupAbundance(kmer)", an exact-match lookup. *)
Record Counttable : Type := mkCounttable {
  ksize : Z;
  counts : string -> Z
}.

Definition get_kmers (ct : Counttable) (s : string) : list string :=
  if strlen s <? ksize ct then []
  else map (fun i => substring i (Z.to_nat (ksize ct)) s)
           (seq 0 (Z.to_nat (strlen s - ksize ct + 1))).

Definition get_count (ct : Counttable) (kmer : string) : Z := counts ct kmer.

(** The sampling policy behind [Mutator::skip_nucl] (mutator.cpp is not among
    the sources): a state and a draw that says whether to skip. *)
Class SkipPolicy (S : Type) : Type :=
  skip_draw : S -> bool * S.

(** The progress logger ([Logger], not among the sources): [increment()],
    the [counter] field, writing to [stream], and the two renderings the
    report needs: the megabase figure (a [float] printed with one decimal)
    and a histogram. *)
Class Reporter (L : Type) : Type := {
  logger_increment : L -> bool * L;
  logger_counter : L -> Z;
  stream_put : string -> L -> L;
  show_mb : Z -> string;
  show_hist : Histogram -> string
}.

(** Two sampling policies and a logger to run the model on. *)
#[export] Instance never_skip : SkipPolicy unit := fun s => (false, s).

#[export] Instance every_other : SkipPolicy bool := fun b => (b, negb b).

(** The megabase figure in tenths: [counter / 1000000] rounded to one
    decimal, as printing with fixed precision 1 rounds it. The quotient is
    taken exactly here and halves go up; the code divides in single
    precision, which can differ only where the quotient is within a float's
    rounding error of a half. *)
Definition tenths_of_mb (c : Z) : Z := (c + 50000) / 100000.

Record TextLogger : Type := mkTextLogger {
  tl_counter : Z;
  tl_interval : Z;
  tl_stream : string
}.

#[export] Instance text_reporter : Reporter TextLogger := {|
  logger_increment l :=
    let c := tl_counter l + 1 in
    (c mod tl_interval l =? 0, mkTextLogger c (tl_interval l) (tl_stream l));
  logger_counter := tl_counter;
  stream_put s l :=
    mkTextLogger (tl_counter l) (tl_interval l) (tl_stream l ++ s);
  show_mb c := (show_uint (tenths_of_mb c / 10) ++ "."
                ++ show_uint (tenths_of_mb c mod 10))%string;
  show_hist h :=
    String.concat " " (map (fun v => (show_uint v ++ ":" ++ show_uint (hist_count h v))%string)
                           (elements (dom h)))
|}.

(** ** The mutator *)

Section Del.

Context {Sampler Logger : Type}.
Context {policy : SkipPolicy Sampler} {reporter : Reporter Logger}.

(** The fields of [Mutator] that del.cpp uses, then those of [MutatorDel].
    The class declarations are not among the sources: the widths are those
    of the constructor's parameters ([uint ksize], [uint delsize],
    [ulong lim]) and of the result of [get_mut_count] ([ulong]). *)
Record MutatorDel : Type := mkMutatorDel {
  k : Z;                      (* uint *)
  limit : Z;                  (* ulong *)
  abund_hist : Histogram;
  unique_hist : Histogram;
  sampler : Sampler;
  logger : Logger;
  delcount : Z;               (* ulong *)
  delsize : Z                 (* uint *)
}.

Record Deletion : Type := mkDeletion {
  sequence : string;
  abunds : list Z
}.

Definition with_abund_hist (m : MutatorDel) (h : Histogram) : MutatorDel :=
  mkMutatorDel (k m) (limit m) h (unique_hist m) (sampler m) (logger m)
               (delcount m) (delsize m).

Definition with_unique_hist (m : MutatorDel) (h : Histogram) : MutatorDel :=
  mkMutatorDel (k m) (limit m) (abund_hist m) h (sampler m) (logger m)
               (delcount m) (delsize m).

Definition with_sampler (m : MutatorDel) (s : Sampler) : MutatorDel :=
  mkMutatorDel (k m) (limit m) (abund_hist m) (unique_hist m) s (logger m)
               (delcount m) (delsize m).

Definition with_logger (m : MutatorDel) (l : Logger) : MutatorDel :=
  mkMutatorDel (k m) (limit m) (abund_hist m) (unique_hist m) (sampler m) l
               (delcount m) (delsize m).

Definition with_delcount (m : MutatorDel) (n : Z) : MutatorDel :=
  mkMutatorDel (k m) (limit m) (abund_hist m) (unique_hist m) (sampler m)
               (logger m) n (delsize m).

(** [MutatorDel::MutatorDel(ksize, delsize, l, maxabund, lim)]. The base
    constructor is not among the sources; modelled from the spec: the
    histograms start empty. The sampling policy starts in [s0]. *)
Definition new_MutatorDel (ksize delsize : Z) (l : Logger) (maxabund : Z)
    (lim : Z) (s0 : Sampler) : MutatorDel :=
  mkMutatorDel ksize lim ∅ ∅ s0 l 0 delsize.

(** [Mutator::skip_nucl()]. *)
Definition skip_nucl (m : MutatorDel) : bool * MutatorDel :=
  let (skip, s) := skip_draw (sampler m) in (skip, with_sampler m s).

(** *** [MutatorDel::Deletion::Deletion] *)

(** One turn of the loop over the k-mers: the state is the mutator, the
    abundance vector and [unique_count]. [unique_count] is an [int] that is
    incremented at most once per k-mer; it is an unbounded integer here,
    which is exact while the number of k-mers is below [2^31]. *)
Definition tally_kmer (ct : Counttable) (st : MutatorDel * list Z * Z)
    (kmer : string) : MutatorDel * list Z * Z :=
  let '(m, abunds, unique_count) := st in
  let kmer_freq := uint (get_count ct kmer) in
  (with_abund_hist m (hist_increment kmer_freq (abund_hist m)),
   abunds ++ [kmer_freq],
   if kmer_freq =? 0 then unique_count + 1 else unique_count).

Definition new_Deletion (seq : string) (m : MutatorDel) (ct : Counttable)
    : result (Deletion * MutatorDel) :=
  let kmers := get_kmers ct seq in
  if Z.of_nat (length kmers) =? k m then
    let '(m, abunds, unique_count) := fold_left (tally_kmer ct) kmers (m, [], 0) in
    Ok (mkDeletion seq abunds,
        with_unique_hist m (hist_increment unique_count (unique_hist m)))
  else Err KmerCountAssertion.

(** *** [MutatorDel::Deletion::print] *)

Definition ostream := string.

(** The two loops run [i] from 0 to [k - 1]. Reading [abunds[i]] past the end
    of the vector is undefined in C++ and reads 0 here; the constructor
    always leaves k entries. *)
Definition print (del : Deletion) (m : MutatorDel) (stream : ostream) : ostream :=
  let stream := (stream ++ ">" ++ sequence del ++ nl)%string in
  let stream :=
    fold_left (fun st (_ : nat) => (st ++ " ")%string)
              (seq 0 (Z.to_nat (k m))) stream in
  let stream := (stream ++ "|" ++ nl)%string in
  let stream :=
    fold_left (fun st (i : nat) =>
                 let abund := nth i (abunds del) 0 in
                 let st := if (0 <? i)%nat then (st ++ " ")%string else st in
                 (st ++ show_uint abund)%string)
              (seq 0 (Z.to_nat (k m))) stream in
  (stream ++ nl)%string.

(** *** [MutatorDel::process] *)

(** The loop condition [i + k + delsize <= sequence.length()]. *)
Definition loop_test (m : MutatorDel) (seq : string) (i : Z) : bool :=
  ulong (ulong (i + k m) + delsize m) <=? strlen seq.

(** [sequence.substr(min1, length1)] and [sequence.substr(min2, length2)]. *)
Definition left_flank (m : MutatorDel) (seq : string) (i : Z) : option string :=
  let min1 := ulong (ulong (i - k m) + 1) in
  let length1 := uint (k m - 1) in
  substr seq min1 length1.

Definition right_flank (m : MutatorDel) (seq : string) (i : Z) : option string :=
  let min2 := ulong (i + delsize m) in
  let length2 := k m in
  substr seq min2 length2.

(** Lines 23-29: the junction string and the assertion on its size. *)
Definition delseq_at (m : MutatorDel) (seq : string) (i : Z) : result string :=
  match left_flank m seq i, right_flank m seq i with
  | Some l, Some r =>
      let delseq := (l ++ r)%string in
      if strlen delseq =? uint (uint (2 * k m) - 1) then Ok delseq
      else Err DelseqSizeAssertion
  | _, _ => Err OutOfRange
  end.

(** Lines 34-39: the report written at a checkpoint. *)
Definition report (del : Deletion) (m : MutatorDel) (lg : Logger) : Logger :=
  let mb := show_mb (logger_counter lg) in
  let lg := stream_put ("# ...processed " ++ mb ++ " Mb of sequence" ++ nl)%string lg in
  let lg := stream_put (print del m EmptyString) lg in
  stream_put ("# " ++ show_hist (abund_hist m) ++ nl ++
              "# " ++ show_hist (unique_hist m) ++ nl)%string lg.

(** How one turn of the [for] loop ends. *)
Inductive flow : Type :=
| Break
| Next (kmercount : Z) (m : MutatorDel)
| Raise (e : exn).

(** The body of the loop at position [i]. *)
Definition process_body (seq : string) (ct : Counttable) (i kmercount : Z)
    (m : MutatorDel) : flow :=
  if (0 <? limit m) && (limit m <? delcount m) then Break
  else
    let (skip, m) := skip_nucl m in
    if skip then Next kmercount m
    else
      let m := with_delcount m (ulong (delcount m + 1)) in
      match delseq_at m seq i with
      | Err e => Raise e
      | Ok delseq =>
          match new_Deletion delseq m ct with
          | Err e => Raise e
          | Ok (del, m) =>
              let (doprint, lg) := logger_increment (logger m) in
              let lg := if doprint then report del m lg else lg in
              Next (ulong (kmercount + k m)) (with_logger m lg)
          end
      end.

Fixpoint process_loop (fuel : nat) (seq : string) (ct : Counttable)
    (i kmercount : Z) (m : MutatorDel) : option (result (Z * MutatorDel)) :=
  match fuel with
  | O => None
  | S fuel =>
      if loop_test m seq i then
        match process_body seq ct i kmercount m with
        | Break => Some (Ok (kmercount, m))
        | Next kmercount m => process_loop fuel seq ct (ulong (i + 1)) kmercount m
        | Raise e => Some (Err e)
        end
      else Some (Ok (kmercount, m))
  end.

Definition process (seq : string) (ct : Counttable) (m : MutatorDel)
    : option (result (Z * MutatorDel)) :=
  process_loop (S (String.length seq)) seq ct (uint (k m - 1)) 0 m.

(** *** [MutatorDel::get_mut_count] *)

Definition get_mut_count (m : MutatorDel) : Z * MutatorDel := (delcount m, m).

End Del.

Arguments MutatorDel : clear implicits.

(** ** A run on the spec's example *)

Definition quiet_logger : TextLogger := mkTextLogger 0 1000 EmptyString.
Definition chatty_logger : TextLogger := mkTextLogger 0 1 EmptyString.

Definition example_sequence : string := "AAACCCGGGTTT".

(** k = 3, deletion size 2, no limit, sampling off. *)
Definition example_mutator : MutatorDel unit TextLogger :=
  new_MutatorDel 3 2 chatty_logger 16 0 tt.

(** The same with a limit. *)
Definition limited_mutator (lim : Z) : MutatorDel unit TextLogger :=
  new_MutatorDel 3 2 quiet_logger 16 lim tt.

(** The same with a policy that skips every other deletion point. *)
Definition sampling_mutator : MutatorDel bool TextLogger :=
  new_MutatorDel 3 2 quiet_logger 16 0 false.

(** The same with histograms that are not empty. *)
Definition used_mutator : MutatorDel unit TextLogger :=
  mkMutatorDel 3 0 {[+ 7 +]} {[+ 1 +]} tt quiet_logger 0 2.

(** A table of 3-mers in which "AAC" was seen 5 times and "CCG" twice. *)
Definition sample_table : Counttable :=
  mkCounttable 3 (fun kmer =>
    if (kmer =? "AAC")%string then 5
    else if (kmer =? "CCG")%string then 2 else 0).


(** ** Vocabulary of the statements *)

(** The abundances the constructor looks up for a list of k-mers, in order,
    and how many of them are zero. *)
Definition kmer_freqs (ct : Counttable) (kmers : list string) : list Z :=
  map (fun kmer => uint (get_count ct kmer)) kmers.

Definition zero_count (freqs : list Z) : Z :=
  Z.of_nat (length (List.filter (fun v => v =? 0) freqs)).

(** The spec's words for the left flank, "substring of length k-1 ending at
    position i inclusive": the [len] characters the last of which is at
    position [last]. *)
Definition substring_ending_at (seq : string) (last len : Z) : option string :=
  substr seq (last - len + 1) len.

(** A run of [n] space characters. *)
Fixpoint spaces (n : nat) : string :=
  match n with
  | O => EmptyString
  | S n => String " " (spaces n)
  end.

(** Each value in decimal, preceded by a space. *)
Definition spaced (values : list Z) : string :=
  fold_right (fun v acc => (" " ++ show_uint v ++ acc)%string) EmptyString values.

(** A histogram after recording a list of values, first to last. *)
Definition record_all (values : list Z) (h : Histogram) : Histogram :=
  fold_left (fun h v => hist_increment v h) values h.

Section Vocabulary.

Context {Sampler Logger : Type}.
Context {policy : SkipPolicy Sampler} {reporter : Reporter Logger}.
Implicit Types m ma : MutatorDel Sampler Logger.

(** What constructing the event of a junction string does to the mutator. *)
Definition after_event (ct : Counttable) (delseq : string) m
    : MutatorDel Sampler Logger :=
  let freqs := kmer_freqs ct (get_kmers ct delseq) in
  with_unique_hist
    (with_abund_hist m (record_all freqs (abund_hist m)))
    (hist_increment (zero_count freqs) (unique_hist m)).

(** The run parameters, which no operation changes. *)
Definition same_config m m' : Prop :=
  k m' = k m /\ limit m' = limit m /\ delsize m' = delsize m.

(** The k-mer sizes for which the machine arithmetic of del.cpp is exact:
    k is positive, and small enough for [2 * k - 1] to fit a [uint] and for
    [unique_count], an [int] that counts up to k, not to overflow. *)
Definition kmer_size_ok m : Prop := 1 <= k m < 2 ^ 31.

(** Parameters in range, and a table that counts k-mers of the mutator's
    size. *)
Definition config_ok m (ct : Counttable) : Prop :=
  kmer_size_ok m /\ is_uint (delsize m) /\ ksize ct = k m.

(** The deletion points of a sequence: [k - 1 <= i <= length - k - d]. *)
Definition in_window m (seq : string) (i : Z) : Prop :=
  k m - 1 <= i <= strlen seq - k m - delsize m.

(** How many deletion points a sequence has. *)
Definition windows m (seq : string) : nat :=
  Z.to_nat (strlen seq - 2 * k m - delsize m + 2).

(** Of the next [n] draws of the sampling policy, how many do not skip. *)
Fixpoint retained (n : nat) (s : Sampler) : Z :=
  match n with
  | O => 0
  | S n =>
      let (skip, s) := skip_draw s in
      (if skip then 0 else 1) + retained n s
  end.

(** The policy state after [n] draws. *)
Fixpoint draws (n : nat) (s : Sampler) : Sampler :=
  match n with
  | O => s
  | S n => draws n (snd (skip_draw s))
  end.

(** The states of the loop (position, running total, mutator) that a run
    started in a given state goes through at the top of an iteration. *)
Inductive visits (seq : string) (ct : Counttable)
  : Z -> Z -> MutatorDel Sampler Logger ->
    Z -> Z -> MutatorDel Sampler Logger -> Prop :=
| visits_start i kc m : visits seq ct i kc m i kc m
| visits_step i kc m kc1 m1 i' kc' m' :
    loop_test m seq i = true ->
    process_body seq ct i kc m = Next kc1 m1 ->
    visits seq ct (ulong (i + 1)) kc1 m1 i' kc' m' ->
    visits seq ct i kc m i' kc' m'.

(** Two unlimited mutators with the same parameters and policy state, the
    histograms of the second being those of the first with [A] and [U]
    added bucket by bucket. *)
Definition shifted (A U : Histogram) m ma : Prop :=
  k ma = k m /\ delsize ma = delsize m /\
  limit m = 0 /\ limit ma = 0 /\
  sampler ma = sampler m /\
  abund_hist ma = abund_hist m ⊎ A /\
  unique_hist ma = unique_hist m ⊎ U.

End Vocabulary.

(** ** A run with a k-mer size above 2^31 *)

(** [n] copies of a character. *)
Fixpoint replicate_char (n : nat) (c : ascii) : string :=
  match n with
  | O => EmptyString
  | S n => String c (replicate_char n c)
  end.

(** A sequence of 2^32 + 2 bases, the shortest with a deletion point when
    k = 2^31 + 1 and the deletion size is 1. *)
Definition huge_sequence : string := replicate_char (Z.to_nat (2 ^ 32 + 2)) "A".

Definition huge_k_mutator : MutatorDel unit TextLogger :=
  new_MutatorDel (2 ^ 31 + 1) 1 quiet_logger 16 0 tt.

(** ** Vocabulary of the further properties *)

(** The sequence with the [d] characters from position [i] on removed. *)
Definition delete_span (seq : string) (i d : nat) : string :=
  (substring 0 i seq
   ++ substring (i + d) (String.length seq - (i + d)) seq)%string.

(** The logger after one call of [increment()]. *)
Definition advance {L : Type} {reporter : Reporter L} (l : L) : L :=
  snd (logger_increment l).

(** A policy that skips every deletion point. *)
Definition always_skip : SkipPolicy unit := fun s => (true, s).

(** A logger that counts the events and never reports. *)
#[export] Instance silent_reporter : Reporter Z := {|
  logger_increment l := (false, l + 1);
  logger_counter l := l;
  stream_put _ l := l;
  show_mb _ := EmptyString;
  show_hist _ := EmptyString
|}.

(** A table of 4-mers. *)
Definition other_table : Counttable := mkCounttable 4 (fun _ => 1).

(** The example mutator with the logger that never reports. *)
Definition quiet_mutator : MutatorDel unit Z := new_MutatorDel 3 2 0 16 0 tt.

(** The example sequence with other characters at positions 3 and 4. *)
Definition altered_sequence : string := "AAATACGGGTTT".

(** Range facts about concrete parameters, by computation. *)
Ltac in_range :=
  unfold config_ok, kmer_size_ok, is_uint, in_window, string_max_size;
  repeat split; vm_compute; first [reflexivity | intro; discriminate].

(** * Properties *)

(** ** Machine integers *)

Lemma uint_small z : 0 <= z < 2 ^ 32 -> uint z = z.
Proof. intros Hz. unfold uint. now apply Z.mod_small. Qed.

Lemma ulong_small z : 0 <= z < 2 ^ 64 -> ulong z = z.
Proof. intros Hz. unfold ulong. now apply Z.mod_small. Qed.

Lemma ulong_range z : 0 <= ulong z < 2 ^ 64.
Proof. unfold ulong. apply Z.mod_pos_bound. lia. Qed.

Lemma ulong_succ_le z : 0 <= z -> ulong (z + 1) <= z + 1.
Proof. intros Hz. unfold ulong. apply Z.mod_le; lia. Qed.

Lemma ulong_add_idemp_l a b : ulong (ulong a + b) = ulong (a + b).
Proof. unfold ulong. apply Zplus_mod_idemp_l. Qed.

(** ** Strings *)

Lemma length_append (s1 s2 : string) :
  String.length (s1 ++ s2) = (String.length s1 + String.length s2)%nat.
Proof. induction s1 as [|c s1 IH]; simpl; [reflexivity | now rewrite IH]. Qed.

Lemma length_substring (s : string) : forall n m : nat,
  (n + m <= String.length s)%nat -> String.length (substring n m s) = m.
Proof.
  induction s as [|c s IH]; intros n m Hle; simpl in Hle.
  - assert (n = 0%nat) by lia. assert (m = 0%nat) by lia. subst. reflexivity.
  - destruct n as [|n]; simpl.
    + destruct m as [|m]; simpl; [reflexivity|]. rewrite IH; [reflexivity | lia].
    + apply IH. lia.
Qed.

Lemma strlen_nonneg s : 0 <= strlen s.
Proof. unfold strlen. lia. Qed.

Lemma strlen_append s1 s2 : strlen (s1 ++ s2) = strlen s1 + strlen s2.
Proof. unfold strlen. rewrite length_append. lia. Qed.

Lemma substr_in_range s pos len :
  0 <= pos -> 0 <= len -> pos + len <= strlen s ->
  exists t, substr s pos len = Some t /\ strlen t = len /\
    forall j : nat, (Z.of_nat j < len) ->
      get j t = get (j + Z.to_nat pos) s.
Proof.
  intros Hpos Hlen Hle. unfold substr.
  destruct (Z.ltb_spec (strlen s) pos) as [Hlt|_]; [lia|].
  eexists; split; [reflexivity|]. split.
  - unfold strlen in *. rewrite length_substring; lia.
  - intros j Hj. apply substring_correct1. lia.
Qed.

(** ** The junction string *)

Section Junction.

Context {Sampler Logger : Type}.
Implicit Types m ma : MutatorDel Sampler Logger.

Lemma assert_size_rhs m :
  1 <= k m <= 2 ^ 31 -> uint (uint (2 * k m) - 1) = 2 * k m - 1.
Proof.
  intros Hk. unfold uint. rewrite Zminus_mod_idemp_l.
  apply Z.mod_small. lia.
Qed.

Lemma loop_test_true m seq i :
  0 <= i -> 0 <= k m -> 0 <= delsize m -> i + k m + delsize m < 2 ^ 64 ->
  loop_test m seq i = (i + k m + delsize m <=? strlen seq).
Proof.
  intros Hi Hk Hd Hlt. unfold loop_test.
  rewrite ulong_add_idemp_l, ulong_small by lia. reflexivity.
Qed.

Lemma flanks_in_window m seq i :
  1 <= k m <= 2 ^ 31 -> 0 <= delsize m -> strlen seq <= string_max_size ->
  k m - 1 <= i <= strlen seq - k m - delsize m ->
  exists l r,
    left_flank m seq i = Some l /\ right_flank m seq i = Some r /\
    strlen l = k m - 1 /\ strlen r = k m /\
    (forall j : nat, Z.of_nat j < k m - 1 ->
       get j l = get (j + Z.to_nat (i - k m + 1)) seq) /\
    (forall j : nat, Z.of_nat j < k m ->
       get j r = get (j + Z.to_nat (i + delsize m)) seq) /\
    delseq_at m seq i = Ok (l ++ r)%string.
Proof.
  intros Hk Hd Hmax Hi. unfold string_max_size in Hmax.
  assert (Hmin1 : ulong (ulong (i - k m) + 1) = i - k m + 1).
  { rewrite ulong_add_idemp_l. apply ulong_small. lia. }
  assert (Hlen1 : uint (k m - 1) = k m - 1) by (apply uint_small; lia).
  assert (Hmin2 : ulong (i + delsize m) = i + delsize m) by (apply ulong_small; lia).
  destruct (substr_in_range seq (i - k m + 1) (k m - 1)) as (l & Hl & Hll & Hlg); try lia.
  destruct (substr_in_range seq (i + delsize m) (k m)) as (r & Hr & Hrl & Hrg); try lia.
  exists l, r.
  assert (HL : left_flank m seq i = Some l).
  { unfold left_flank. now rewrite Hmin1, Hlen1. }
  assert (HR : right_flank m seq i = Some r).
  { unfold right_flank. now rewrite Hmin2. }
  repeat split; try assumption.
  unfold delseq_at. rewrite HL, HR. cbv zeta.
  rewrite assert_size_rhs, strlen_append, Hll, Hrl by assumption.
  destruct (Z.eqb_spec (k m - 1 + k m) (2 * k m - 1)); [reflexivity | lia].
Qed.

Lemma delseq_at_ext m1 m2 seq i :
  k m1 = k m2 -> delsize m1 = delsize m2 ->
  delseq_at m1 seq i = delseq_at m2 seq i.
Proof.
  intros Hk Hd. unfold delseq_at, left_flank, right_flank.
  rewrite Hk, Hd. reflexivity.
Qed.

End Junction.

(** ** The deletion event *)

Section Event.

Context {Sampler Logger : Type}.
Implicit Types m ma : MutatorDel Sampler Logger.

Lemma with_abund_hist_twice m h h' :
  with_abund_hist (with_abund_hist m h) h' = with_abund_hist m h'.
Proof. reflexivity. Qed.

Lemma with_abund_hist_same m : with_abund_hist m (abund_hist m) = m.
Proof. now destruct m. Qed.

Lemma get_kmers_length ct s :
  0 <= ksize ct <= strlen s ->
  Z.of_nat (length (get_kmers ct s)) = strlen s - ksize ct + 1.
Proof.
  intros Hk. unfold get_kmers.
  destruct (Z.ltb_spec (strlen s) (ksize ct)) as [Hlt|_]; [lia|].
  rewrite length_map, length_seq. lia.
Qed.

Lemma get_kmers_nth ct s (j : nat) :
  0 <= ksize ct <= strlen s -> Z.of_nat j < strlen s - ksize ct + 1 ->
  nth j (get_kmers ct s) EmptyString = substring j (Z.to_nat (ksize ct)) s.
Proof.
  intros Hk Hj. unfold get_kmers.
  destruct (Z.ltb_spec (strlen s) (ksize ct)) as [Hlt|_]; [lia|].
  set (f := fun i : nat => substring i (Z.to_nat (ksize ct)) s).
  rewrite (nth_indep _ EmptyString (f 0%nat))
    by (rewrite length_map, length_seq; lia).
  rewrite (map_nth f), seq_nth by lia. reflexivity.
Qed.

Lemma tally_kmers ct kmers : forall m ab u,
  fold_left (tally_kmer ct) kmers (m, ab, u) =
  (with_abund_hist m
     (fold_left (fun h v => hist_increment v h) (kmer_freqs ct kmers) (abund_hist m)),
   ab ++ kmer_freqs ct kmers,
   u + zero_count (kmer_freqs ct kmers)).
Proof.
  induction kmers as [|kmer kmers IH]; intros m ab u; simpl.
  - rewrite with_abund_hist_same, app_nil_r, Z.add_0_r. reflexivity.
  - rewrite IH. rewrite with_abund_hist_twice. simpl.
    rewrite <- app_assoc. simpl. f_equal.
    unfold zero_count. cbn [List.filter].
    destruct (uint (get_count ct kmer) =? 0); cbn [length]; lia.
Qed.

End Event.

(** ** One turn of the loop *)

Section Body.

Context {Sampler Logger : Type}.
Context {policy : SkipPolicy Sampler} {reporter : Reporter Logger}.
Implicit Types m ma : MutatorDel Sampler Logger.

Lemma new_Deletion_inv seq m ct del m' :
  new_Deletion seq m ct = Ok (del, m') ->
  Z.of_nat (length (get_kmers ct seq)) = k m /\
  del = mkDeletion seq (kmer_freqs ct (get_kmers ct seq)) /\
  m' = after_event ct seq m.
Proof.
  unfold new_Deletion. cbv zeta.
  destruct (Z.eqb_spec (Z.of_nat (length (get_kmers ct seq))) (k m)) as [Hk|]; [|discriminate].
  rewrite tally_kmers. intros [= <- <-]. auto.
Qed.

Lemma new_Deletion_ok seq m ct :
  1 <= k m -> ksize ct = k m -> strlen seq = 2 * k m - 1 ->
  Z.of_nat (length (get_kmers ct seq)) = k m /\
  new_Deletion seq m ct =
    Ok (mkDeletion seq (kmer_freqs ct (get_kmers ct seq)), after_event ct seq m).
Proof.
  intros Hk Hks Hlen.
  assert (Hn : Z.of_nat (length (get_kmers ct seq)) = k m)
    by (rewrite get_kmers_length; lia).
  split; [exact Hn|].
  unfold new_Deletion. cbv zeta. rewrite Hn, Z.eqb_refl, tally_kmers. reflexivity.
Qed.

Lemma limit_check_false m :
  (0 <? limit m) && (limit m <? delcount m) = false <->
  (limit m <= 0 \/ delcount m <= limit m).
Proof.
  rewrite andb_false_iff, !Z.ltb_ge. reflexivity.
Qed.

Lemma process_body_Break seq ct i kc m :
  0 < limit m < delcount m -> process_body seq ct i kc m = Break.
Proof.
  intros [H1 H2]. unfold process_body.
  destruct (Z.ltb_spec 0 (limit m)); [|lia].
  destruct (Z.ltb_spec (limit m) (delcount m)); [|lia]. reflexivity.
Qed.

Lemma process_body_Next seq ct i kc m kc' m' :
  process_body seq ct i kc m = Next kc' m' ->
  (limit m <= 0 \/ delcount m <= limit m) /\
  ((fst (skip_draw (sampler m)) = true /\ kc' = kc /\
    m' = with_sampler m (snd (skip_draw (sampler m)))) \/
   (fst (skip_draw (sampler m)) = false /\ kc' = ulong (kc + k m) /\
    exists delseq lg,
      delseq_at m seq i = Ok delseq /\
      m' = with_logger
             (after_event ct delseq
                (with_delcount (with_sampler m (snd (skip_draw (sampler m))))
                               (ulong (delcount m + 1)))) lg)).
Proof.
  unfold process_body, skip_nucl.
  destruct ((0 <? limit m) && (limit m <? delcount m)) eqn:Hlim; [discriminate|].
  apply limit_check_false in Hlim.
  destruct (skip_draw (sampler m)) as [skip s]; cbn [fst snd].
  destruct skip.
  - intros [= <- <-]. auto.
  - rewrite (delseq_at_ext _ m) by reflexivity.
    destruct (delseq_at m seq i) as [delseq|e]; [|discriminate].
    match goal with |- context [new_Deletion delseq ?m1 ct] =>
      destruct (new_Deletion delseq m1 ct) as [[del m2]|e] eqn:Hdel; [|discriminate]
    end.
    apply new_Deletion_inv in Hdel as (_ & _ & ->).
    destruct (logger_increment _) as [doprint lg].
    intros [= <- <-]. split; [assumption|]. right.
    split; [reflexivity|]. split; [reflexivity|]. eauto.
Qed.

Lemma process_body_frame seq ct i kc m kc' m' :
  process_body seq ct i kc m = Next kc' m' ->
  same_config m m' /\
  (delcount m' = delcount m \/ delcount m' = ulong (delcount m + 1)).
Proof.
  intros H. apply process_body_Next in H as [_ [(_ & _ & ->)|(_ & _ & delseq & lg & _ & ->)]];
    unfold same_config; cbn; auto.
Qed.

Lemma process_body_in_window seq ct i kc m :
  config_ok m ct -> strlen seq <= string_max_size -> in_window m seq i ->
  limit m <= 0 \/ delcount m <= limit m ->
  exists m',
    process_body seq ct i kc m =
      Next (if fst (skip_draw (sampler m)) then kc else ulong (kc + k m)) m' /\
    same_config m m' /\
    sampler m' = snd (skip_draw (sampler m)) /\
    delcount m' =
      (if fst (skip_draw (sampler m)) then delcount m else ulong (delcount m + 1)).
Proof.
  intros (Hk & [Hd _] & Hks) Hmax Hwin Hlim. unfold kmer_size_ok in Hk.
  apply limit_check_false in Hlim.
  unfold process_body, skip_nucl. rewrite Hlim.
  destruct (skip_draw (sampler m)) as [skip s]; cbn [fst snd].
  destruct skip.
  - eexists; split; [reflexivity|]. unfold same_config; cbn; auto.
  - rewrite (delseq_at_ext _ m) by reflexivity.
    destruct (flanks_in_window m seq i) as (l & r & _ & _ & Hl & Hr & _ & _ & ->);
      try assumption; try lia.
    match goal with |- context [new_Deletion ?d ?m1 ct] =>
      destruct (new_Deletion_ok d m1 ct) as [_ ->]
    end; cbn [k with_sampler with_delcount]; try lia.
    { rewrite strlen_append. lia. }
    destruct (logger_increment _) as [doprint lg].
    eexists; split; [reflexivity|]. unfold same_config; cbn; auto.
Qed.

End Body.

(** ** The loop *)

Section Loop.

Context {Sampler Logger : Type}.
Context {policy : SkipPolicy Sampler} {reporter : Reporter Logger}.
Implicit Types m ma : MutatorDel Sampler Logger.

Lemma same_config_refl m : same_config m m.
Proof. unfold same_config. auto. Qed.

Lemma same_config_trans m1 m2 m3 :
  same_config m1 m2 -> same_config m2 m3 -> same_config m1 m3.
Proof. unfold same_config. intros (?&?&?) (?&?&?). repeat split; congruence. Qed.

Lemma config_ok_same m m' ct : same_config m m' -> config_ok m ct -> config_ok m' ct.
Proof. unfold same_config, config_ok, kmer_size_ok. intros (-> & _ & ->). auto. Qed.

Lemma loop_test_same m m' seq i :
  same_config m m' -> loop_test m' seq i = loop_test m seq i.
Proof. unfold same_config, loop_test. intros (-> & _ & ->). reflexivity. Qed.

Lemma process_body_Raise seq ct i kc m e :
  process_body seq ct i kc m = Raise e ->
  delseq_at m seq i = Err e \/ e = KmerCountAssertion.
Proof.
  unfold process_body, skip_nucl.
  destruct ((0 <? limit m) && (limit m <? delcount m)); [discriminate|].
  destruct (skip_draw (sampler m)) as [[] s]; [discriminate|].
  rewrite (delseq_at_ext _ m) by reflexivity.
  destruct (delseq_at m seq i) as [delseq|e']; [|intros [= ->]; auto].
  unfold new_Deletion. cbv zeta.
  destruct (Z.of_nat (length (get_kmers ct delseq)) =? _).
  - rewrite tally_kmers. destruct (logger_increment _). discriminate.
  - intros [= <-]. auto.
Qed.

(** A run that returns went through the state it returns; a run that
    raises went through a state whose turn raises. *)
Lemma process_loop_Ok fuel seq ct : forall i kc m kc' m',
  process_loop fuel seq ct i kc m = Some (Ok (kc', m')) ->
  exists i', visits seq ct i kc m i' kc' m'.
Proof.
  induction fuel as [|fuel IH]; intros i kc m kc' m'; simpl; [discriminate|].
  destruct (loop_test m seq i) eqn:Htest.
  - destruct (process_body seq ct i kc m) as [|kc1 m1|e] eqn:Hbody.
    + intros [= <- <-]. eexists. constructor.
    + intros H. apply IH in H as [i' H]. exists i'. econstructor; eassumption.
    + discriminate.
  - intros [= <- <-]. eexists. constructor.
Qed.

Lemma process_loop_Err fuel seq ct : forall i kc m e,
  process_loop fuel seq ct i kc m = Some (Err e) ->
  exists i' kc' m', visits seq ct i kc m i' kc' m' /\
    loop_test m' seq i' = true /\ process_body seq ct i' kc' m' = Raise e.
Proof.
  induction fuel as [|fuel IH]; intros i kc m e; simpl; [discriminate|].
  destruct (loop_test m seq i) eqn:Htest; [|discriminate].
  destruct (process_body seq ct i kc m) as [|kc1 m1|e'] eqn:Hbody.
  - discriminate.
  - intros H. apply IH in H as (i' & kc' & m' & Hv & Ht & Hb).
    exists i', kc', m'. split; [econstructor; eassumption | auto].
  - intros [= ->]. exists i, kc, m. split; [constructor | auto].
Qed.

(** Every state a run goes through keeps the run parameters, and its
    position has not left the deletion points behind. *)
Lemma visits_position seq ct i kc m i' kc' m' :
  visits seq ct i kc m i' kc' m' ->
  0 <= k m -> 0 <= delsize m -> strlen seq <= string_max_size ->
  0 <= i -> i + k m + delsize m < 2 ^ 64 ->
  same_config m m' /\ i <= i' /\ i' + k m + delsize m < 2 ^ 64.
Proof.
  unfold string_max_size.
  induction 1 as [i kc m | i kc m kc1 m1 i' kc' m' Htest Hbody _ IH];
    intros Hk Hd Hmax Hi Hlt.
  - split; [apply same_config_refl | lia].
  - rewrite loop_test_true in Htest by assumption. apply Z.leb_le in Htest.
    apply process_body_frame in Hbody as [Hsame _].
    pose proof Hsame as (Hk1 & _ & Hd1).
    assert (Hnext : ulong (i + 1) = i + 1) by (apply ulong_small; lia).
    rewrite Hnext, Hk1, Hd1 in IH.
    destruct IH as (Hsame' & Hle & Hlt'); try lia.
    split; [eapply same_config_trans; eassumption | lia].
Qed.

(** With a limit set, the counter stays within one of it. *)
Lemma visits_delcount seq ct i kc m i' kc' m' :
  visits seq ct i kc m i' kc' m' ->
  0 < limit m -> 0 <= delcount m <= limit m + 1 ->
  limit m' = limit m /\ 0 <= delcount m' <= limit m + 1.
Proof.
  induction 1 as [i kc m | i kc m kc1 m1 i' kc' m' _ Hbody _ IH]; intros HL Hc.
  - auto.
  - pose proof (process_body_frame _ _ _ _ _ _ _ Hbody) as [(_ & HL1 & _) Hc1].
    apply process_body_Next in Hbody as [Hlim _].
    pose proof (ulong_range (delcount m + 1)).
    pose proof (ulong_succ_le (delcount m)).
    rewrite HL1 in IH. apply IH; lia.
Qed.

Lemma retained_bounds (n : nat) : forall s : Sampler, 0 <= retained n s <= Z.of_nat n.
Proof.
  induction n as [|n IH]; intros s; simpl; [lia|].
  destruct (skip_draw s) as [skip s']. specialize (IH s').
  destruct skip; lia.
Qed.

(** A run with parameters in range returns, whatever the limit and the
    sampling policy: the fuel suffices and nothing raises. *)
Lemma process_loop_returns seq ct (n : nat) : forall (fuel : nat) i kc m,
  config_ok m ct -> strlen seq <= string_max_size ->
  k m - 1 <= i -> i + k m + delsize m < 2 ^ 64 ->
  strlen seq + 1 - (i + k m + delsize m) <= Z.of_nat n -> (n < fuel)%nat ->
  exists kc' m',
    process_loop fuel seq ct i kc m = Some (Ok (kc', m')) /\ same_config m m'.
Proof.
  induction n as [|n IH]; intros fuel i kc m Hcfg Hmax Hi Hlt Hn Hfuel;
    (destruct fuel as [|fuel]; [lia|]); simpl;
    pose proof Hcfg as (Hk & [Hd _] & _); unfold kmer_size_ok in Hk;
    rewrite loop_test_true by lia;
    (destruct (Z.leb_spec (i + k m + delsize m) (strlen seq)) as [Hle|Hgt];
     [|exists kc, m; split; [reflexivity | apply same_config_refl]]).
  - lia.
  - assert (Hcase : 0 < limit m < delcount m \/
                    (limit m <= 0 \/ delcount m <= limit m)) by lia.
    destruct Hcase as [Hstop|Hgo].
    + rewrite process_body_Break by assumption.
      exists kc, m; split; [reflexivity | apply same_config_refl].
    + destruct (process_body_in_window seq ct i kc m) as (m1 & -> & Hsame & _);
        [assumption | assumption | unfold in_window; lia | assumption |].
      pose proof Hsame as (Hk1 & _ & Hd1). unfold string_max_size in Hmax.
      rewrite ulong_small by lia.
      edestruct (IH fuel (i + 1)) as (kc' & m' & -> & Hsame');
        [eapply config_ok_same; eassumption | assumption | lia | lia | lia | lia |].
      exists kc', m'. split; [reflexivity | eapply same_config_trans; eassumption].
Qed.

(** A run that the limit does not stop counts the draws that do not skip. *)
Lemma process_loop_unlimited seq ct (n : nat) : forall (fuel : nat) i kc m,
  config_ok m ct -> strlen seq <= string_max_size ->
  k m - 1 <= i -> i + k m + delsize m < 2 ^ 64 ->
  Z.of_nat n = Z.max 0 (strlen seq + 1 - (i + k m + delsize m)) ->
  (n < fuel)%nat ->
  0 <= kc < 2 ^ 64 ->
  limit m <= 0 \/
    (is_ulong (delcount m) /\ delcount m + retained n (sampler m) <= limit m) ->
  exists m',
    process_loop fuel seq ct i kc m =
      Some (Ok (ulong (kc + retained n (sampler m) * k m), m')) /\
    same_config m m' /\
    sampler m' = draws n (sampler m) /\
    (is_ulong (delcount m) ->
     delcount m' = ulong (delcount m + retained n (sampler m))).
Proof.
  unfold is_ulong.
  induction n as [|n IH]; intros fuel i kc m Hcfg Hmax Hi Hlt Hn Hfuel Hkc Hlim;
    (destruct fuel as [|fuel]; [lia|]); cbn [process_loop];
    pose proof Hcfg as (Hk & [Hd _] & _); unfold kmer_size_ok in Hk;
    rewrite loop_test_true by lia;
    destruct (Z.leb_spec (i + k m + delsize m) (strlen seq)) as [Hle|Hgt];
    try lia.
  - exists m. cbn [retained draws]. rewrite !Z.add_0_r, ulong_small by lia.
    split; [reflexivity|]. split; [apply same_config_refl|].
    split; [reflexivity|]. intros Hc. symmetry. apply ulong_small. exact Hc.
  - pose proof (retained_bounds (S n) (sampler m)) as Hr.
    destruct (process_body_in_window seq ct i kc m) as (m1 & -> & Hsame & Hs1 & Hc1);
      [assumption | assumption | unfold in_window; lia | lia |].
    pose proof Hsame as (Hk1 & HL1 & Hd1). unfold string_max_size in Hmax.
    rewrite ulong_small by lia.
    cbn [retained draws] in *.
    destruct (skip_draw (sampler m)) as [skip s]; cbn [fst snd] in *.
    pose proof (retained_bounds n s) as Hr'.
    pose proof (ulong_range (delcount m + 1)) as Hrange.
    destruct skip.
    + edestruct (IH fuel (i + 1) kc m1) as (m' & -> & Hsame' & Hs' & Hc');
        [eapply config_ok_same; eassumption | assumption | lia | lia | lia | lia
        | lia | rewrite HL1, Hs1, Hc1; lia |].
      exists m'. rewrite Hs1, Hc1 in *. rewrite Hk1.
      split; [do 3 f_equal; lia|].
      split; [eapply same_config_trans; eassumption|]. split; [assumption|].
      intros Hc. rewrite Hc' by assumption. f_equal; lia.
    + edestruct (IH fuel (i + 1) (ulong (kc + k m)) m1) as (m' & -> & Hsame' & Hs' & Hc');
        [eapply config_ok_same; eassumption | assumption | lia | lia | lia | lia
        | apply ulong_range | rewrite HL1, Hs1, Hc1 |].
      { destruct Hlim as [|[Hc Hlim]]; [left; assumption | right].
        pose proof (ulong_succ_le (delcount m)). lia. }
      exists m'. rewrite Hs1, Hc1 in *. rewrite Hk1.
      split; [do 3 f_equal; rewrite ulong_add_idemp_l; f_equal; lia|].
      split; [eapply same_config_trans; eassumption|]. split; [assumption|].
      intros Hc. rewrite Hc' by assumption.
      rewrite ulong_add_idemp_l. f_equal; lia.
Qed.

(** A run under a limit with a policy that never skips stops one event
    after the counter reaches the limit, when the deletion points last. *)
Lemma process_loop_limited seq ct (n : nat) : forall (fuel : nat) i kc m,
  config_ok m ct -> strlen seq <= string_max_size ->
  (forall s : Sampler, fst (skip_draw s) = false) ->
  k m - 1 <= i -> i + k m + delsize m < 2 ^ 64 ->
  Z.of_nat n = Z.max 0 (strlen seq + 1 - (i + k m + delsize m)) ->
  (n < fuel)%nat ->
  0 <= kc < 2 ^ 64 ->
  0 < limit m < 2 ^ 64 - 1 -> 0 <= delcount m <= limit m + 1 ->
  limit m + 2 - delcount m <= Z.of_nat n ->
  exists m',
    process_loop fuel seq ct i kc m =
      Some (Ok (ulong (kc + (limit m + 1 - delcount m) * k m), m')) /\
    same_config m m' /\
    delcount m' = limit m + 1.
Proof.
  induction n as [|n IH];
    intros fuel i kc m Hcfg Hmax Hns Hi Hlt Hn Hfuel Hkc HL Hc Hwin; [lia|].
  destruct fuel as [|fuel]; [lia|]. cbn [process_loop].
  pose proof Hcfg as (Hk & [Hd _] & _); unfold kmer_size_ok in Hk.
  rewrite loop_test_true by lia.
  destruct (Z.leb_spec (i + k m + delsize m) (strlen seq)) as [Hle|Hgt]; [|lia].
  destruct (Z.eq_dec (delcount m) (limit m + 1)) as [Hfull|Hroom].
  - rewrite process_body_Break by lia. exists m.
    replace (limit m + 1 - delcount m) with 0 by lia.
    rewrite Z.mul_0_l, Z.add_0_r, ulong_small by lia.
    repeat split; try reflexivity; lia.
  - destruct (process_body_in_window seq ct i kc m) as (m1 & -> & Hsame & Hs1 & Hc1);
      [assumption | assumption | unfold in_window; lia | lia |].
    pose proof Hsame as (Hk1 & HL1 & Hd1). unfold string_max_size in Hmax.
    rewrite Hns in *. rewrite ulong_small by lia.
    rewrite ulong_small in Hc1 by lia.
    edestruct (IH fuel (i + 1) (ulong (kc + k m)) m1) as (m' & -> & Hsame' & Hc');
      [eapply config_ok_same; eassumption | assumption | assumption | lia | lia
      | lia | lia | apply ulong_range | lia | lia | lia |].
    exists m'. split; [|split].
    + do 2 f_equal. f_equal. rewrite Hk1, HL1, Hc1.
      rewrite ulong_add_idemp_l. f_equal. lia.
    + eapply same_config_trans; eassumption.
    + lia.
Qed.

End Loop.

(** ** Histograms only accumulate *)

Section Accumulate.

Context {Sampler Logger : Type}.
Context {policy : SkipPolicy Sampler} {reporter : Reporter Logger}.
Implicit Types m ma : MutatorDel Sampler Logger.

Lemma record_all_shift (values : list Z) : forall h A : Histogram,
  record_all values (h ⊎ A) = record_all values h ⊎ A.
Proof.
  unfold record_all.
  induction values as [|v values IH]; intros h A; simpl; [reflexivity|].
  rewrite <- IH. f_equal. unfold hist_increment. multiset_solver.
Qed.

Lemma hist_count_sum (h1 h2 : Histogram) v :
  hist_count (h1 ⊎ h2) v = hist_count h1 v + hist_count h2 v.
Proof. unfold hist_count. rewrite multiplicity_disj_union. lia. Qed.

Lemma hist_count_increment (h : Histogram) v w :
  hist_count (hist_increment v h) w = hist_count h w + (if w =? v then 1 else 0).
Proof.
  unfold hist_count, hist_increment.
  rewrite multiplicity_disj_union, multiplicity_singleton.
  destruct (Z.eqb_spec w v); destruct (decide (w = v)); try contradiction; lia.
Qed.

Lemma process_body_shifted A U seq ct i kc m ma kc' m' :
  shifted A U m ma ->
  process_body seq ct i kc m = Next kc' m' ->
  exists ma', process_body seq ct i kc ma = Next kc' ma' /\ shifted A U m' ma'.
Proof.
  intros (Hk & Hd & HL & HLa & Hs & HA & HU).
  unfold process_body, skip_nucl. rewrite HL, HLa, Hs. cbn [Z.ltb Z.compare andb].
  destruct (skip_draw (sampler m)) as [[] s].
  - intros [= <- <-]. eexists; split; [reflexivity|].
    unfold shifted; cbn. auto 10.
  - rewrite (delseq_at_ext _ m), (delseq_at_ext (with_delcount _ _) m)
      by (try reflexivity; cbn; congruence).
    destruct (delseq_at m seq i) as [delseq|e]; [|discriminate].
    unfold new_Deletion. cbv zeta. cbn [k with_delcount with_sampler]. rewrite Hk.
    destruct (Z.of_nat (length (get_kmers ct delseq)) =? k m); [|discriminate].
    rewrite !tally_kmers. cbn.
    destruct (logger_increment (logger m)) as [doprint lg].
    destruct (logger_increment (logger ma)) as [doprinta lga].
    intros [= <- <-]. rewrite Hk. eexists; split; [reflexivity|].
    unfold shifted; cbn. rewrite HA, HU.
    fold (record_all (kmer_freqs ct (get_kmers ct delseq)) (abund_hist m ⊎ A)).
    fold (record_all (kmer_freqs ct (get_kmers ct delseq)) (abund_hist m)).
    rewrite record_all_shift. unfold hist_increment.
    repeat split; try reflexivity; multiset_solver.
Qed.

Lemma process_loop_shifted A U seq ct (fuel : nat) : forall i kc m ma kc' m',
  shifted A U m ma ->
  process_loop fuel seq ct i kc m = Some (Ok (kc', m')) ->
  exists ma',
    process_loop fuel seq ct i kc ma = Some (Ok (kc', ma')) /\ shifted A U m' ma'.
Proof.
  induction fuel as [|fuel IH]; intros i kc m ma kc' m' Hrel; simpl; [discriminate|].
  assert (Htest : loop_test ma seq i = loop_test m seq i).
  { destruct Hrel as (Hk & Hd & _). unfold loop_test. now rewrite Hk, Hd. }
  rewrite Htest. destruct (loop_test m seq i).
  - destruct (process_body seq ct i kc m) as [|kc1 m1|e] eqn:Hbody.
    + exfalso. revert Hbody. destruct Hrel as (_ & _ & HL & _).
      unfold process_body, skip_nucl. rewrite HL. cbn [Z.ltb Z.compare andb].
      destruct (skip_draw (sampler m)) as [[] s]; [discriminate|].
      destruct (delseq_at _ seq i); [|discriminate].
      destruct (new_Deletion _ _ ct) as [[del m2]|]; [|discriminate].
      destruct (logger_increment (logger m2)). discriminate.
    + destruct (process_body_shifted A U _ _ _ _ _ _ _ _ Hrel Hbody) as (ma1 & -> & Hrel1).
      intros H. eapply IH; eassumption.
    + discriminate.
  - intros [= <- <-]. exists ma. auto.
Qed.

End Accumulate.

(** ** Every deletion point is visited *)

Section Visits.

Context {Sampler Logger : Type}.
Context {policy : SkipPolicy Sampler} {reporter : Reporter Logger}.
Implicit Types m ma : MutatorDel Sampler Logger.

Lemma visits_snoc seq ct i kc m i1 kc1 m1 kc2 m2 :
  visits seq ct i kc m i1 kc1 m1 ->
  loop_test m1 seq i1 = true ->
  process_body seq ct i1 kc1 m1 = Next kc2 m2 ->
  visits seq ct i kc m (ulong (i1 + 1)) kc2 m2.
Proof.
  induction 1 as [i kc m | i kc m kca ma i1 kc1 m1 Htest Hbody _ IH];
    intros Htest1 Hbody1.
  - econstructor; [eassumption | eassumption | constructor].
  - econstructor; [eassumption | eassumption | auto].
Qed.

(** Without a limit, and with parameters in range, the loop reaches every
    deletion point. *)
Lemma visits_all_windows seq ct m (n : nat) :
  config_ok m ct -> strlen seq <= string_max_size -> limit m <= 0 ->
  in_window m seq (k m - 1 + Z.of_nat n) ->
  exists kc m',
    visits seq ct (k m - 1) 0 m (k m - 1 + Z.of_nat n) kc m' /\
    same_config m m'.
Proof.
  intros Hcfg Hmax HL. pose proof Hcfg as (Hk & [Hd Hd'] & _); unfold kmer_size_ok in Hk.
  induction n as [|n IH]; intros Hwin.
  - exists 0, m. rewrite Z.add_0_r.
    split; [constructor | apply same_config_refl].
  - unfold in_window in *.
    destruct IH as (kc & m' & Hv & Hsame); [lia|].
    pose proof Hsame as (Hk' & HL' & Hd'').
    destruct (process_body_in_window seq ct (k m - 1 + Z.of_nat n) kc m')
      as (m2 & Hbody & Hsame2 & _);
      [eapply config_ok_same; eassumption | assumption
      | unfold in_window; lia | lia |].
    unfold string_max_size in Hmax.
    assert (Htest : loop_test m' seq (k m - 1 + Z.of_nat n) = true).
    { rewrite loop_test_true by lia. apply Z.leb_le. lia. }
    pose proof (visits_snoc _ _ _ _ _ _ _ _ _ _ Hv Htest Hbody) as Hv2.
    rewrite ulong_small in Hv2 by lia.
    replace (k m - 1 + Z.of_nat n + 1) with (k m - 1 + Z.of_nat (S n)) in Hv2 by lia.
    eexists _, m2. split; [exact Hv2 | eapply same_config_trans; eassumption].
Qed.

(** Under a limit, every event adds one entry to the unique-count histogram
    and one to the counter. *)
Lemma visits_event_count seq ct i kc m i' kc' m' :
  visits seq ct i kc m i' kc' m' ->
  0 < limit m < 2 ^ 64 - 1 -> 0 <= delcount m <= limit m + 1 ->
  Z.of_nat (size (unique_hist m')) - delcount m' =
  Z.of_nat (size (unique_hist m)) - delcount m.
Proof.
  induction 1 as [i kc m | i kc m kc1 m1 i' kc' m' _ Hbody _ IH]; intros HL Hc;
    [reflexivity|].
  apply process_body_Next in Hbody
    as [Hlim [(_ & _ & ->)|(_ & _ & delseq & lg & _ & ->)]].
  - apply IH; assumption.
  - cbn [limit delcount unique_hist with_logger after_event with_unique_hist
         with_abund_hist with_delcount with_sampler] in IH.
    rewrite ulong_small in IH by lia. rewrite IH by lia.
    unfold hist_increment.
    rewrite gmultiset_size_disj_union, gmultiset_size_singleton. lia.
Qed.

End Visits.

(** ** The diagram *)

Section Diagram.

Lemma append_cons (c : ascii) (s1 s2 : string) :
  (String c s1 ++ s2)%string = String c (s1 ++ s2).
Proof. reflexivity. Qed.

Lemma append_assoc (s1 s2 s3 : string) :
  ((s1 ++ s2) ++ s3 = s1 ++ (s2 ++ s3))%string.
Proof.
  induction s1 as [|c s1 IH]; [reflexivity|].
  rewrite !append_cons, IH. reflexivity.
Qed.

Lemma append_empty_r (s : string) : (s ++ EmptyString)%string = s.
Proof.
  induction s as [|c s IH]; [reflexivity|].
  rewrite append_cons, IH. reflexivity.
Qed.

Lemma fold_spaces (n : nat) : forall (a : nat) (st : string),
  fold_left (fun st (_ : nat) => (st ++ " ")%string) (seq a n) st
  = (st ++ spaces n)%string.
Proof.
  induction n as [|n IH]; intros a st; simpl.
  - now rewrite append_empty_r.
  - rewrite IH, append_assoc. reflexivity.
Qed.

(** The turns of the second loop of [print] from a position past the first. *)
Lemma fold_abunds_tail (rest : list Z) : forall (pre : list Z) (st : string),
  (0 < length pre)%nat ->
  fold_left (fun st (i : nat) =>
               let abund := nth i (pre ++ rest) 0 in
               let st := if (0 <? i)%nat then (st ++ " ")%string else st in
               (st ++ show_uint abund)%string)
            (seq (length pre) (length rest)) st
  = (st ++ spaced rest)%string.
Proof.
  induction rest as [|x rest IH]; intros pre st Hpre; simpl.
  - now rewrite append_empty_r.
  - destruct (Nat.ltb_spec 0 (length pre)) as [_|]; [|lia].
    rewrite nth_middle.
    specialize (IH (pre ++ [x])%list ((st ++ " ") ++ show_uint x)%string).
    rewrite length_app, Nat.add_1_r, <- app_assoc in IH. simpl in IH.
    rewrite IH by lia. rewrite !append_assoc. reflexivity.
Qed.

Lemma concat_spaced (x : Z) (rest : list Z) :
  String.concat " " (map show_uint (x :: rest))
  = (show_uint x ++ spaced rest)%string.
Proof.
  revert x. induction rest as [|y rest IH]; intros x; simpl.
  - now rewrite append_empty_r.
  - simpl in IH. rewrite IH. reflexivity.
Qed.

Lemma fold_abunds (abunds : list Z) (st : string) :
  fold_left (fun st (i : nat) =>
               let abund := nth i abunds 0 in
               let st := if (0 <? i)%nat then (st ++ " ")%string else st in
               (st ++ show_uint abund)%string)
            (seq 0 (length abunds)) st
  = (st ++ String.concat " " (map show_uint abunds))%string.
Proof.
  destruct abunds as [|x rest].
  - simpl. now rewrite append_empty_r.
  - rewrite concat_spaced. cbn [length seq fold_left nth Nat.ltb Nat.leb].
    rewrite <- seq_shift, <- append_assoc.
    pose proof (fold_abunds_tail rest [x] (st ++ show_uint x)%string) as H.
    cbn [length app] in H. rewrite <- seq_shift in H. apply H. lia.
Qed.

End Diagram.

(** ** A run and the states it goes through *)

Section Runs.

Context {Sampler Logger : Type}.
Context {policy : SkipPolicy Sampler} {reporter : Reporter Logger}.
Implicit Types m ma : MutatorDel Sampler Logger.

Lemma process_body_Break_limit seq ct i kc m :
  process_body seq ct i kc m = Break -> 0 < limit m < delcount m.
Proof.
  unfold process_body, skip_nucl.
  destruct (Z.ltb_spec 0 (limit m)), (Z.ltb_spec (limit m) (delcount m));
    cbn [andb]; try (intros _; lia);
    destruct (skip_draw (sampler m)) as [[] s]; try discriminate;
    (destruct (delseq_at _ seq i); [|discriminate]);
    (destruct (new_Deletion _ _ ct) as [[del m2]|]; [|discriminate]);
    destruct (logger_increment (logger m2)); discriminate.
Qed.

(** A run that returns went through the state it returns, and left the loop
    there: the loop condition failed or the limit check broke out. *)
Lemma process_loop_Ok_exit fuel seq ct : forall i kc m kc' m',
  process_loop fuel seq ct i kc m = Some (Ok (kc', m')) ->
  exists i', visits seq ct i kc m i' kc' m' /\
    (loop_test m' seq i' = false \/ process_body seq ct i' kc' m' = Break).
Proof.
  induction fuel as [|fuel IH]; intros i kc m kc' m'; simpl; [discriminate|].
  destruct (loop_test m seq i) eqn:Htest.
  - destruct (process_body seq ct i kc m) as [|kc1 m1|e] eqn:Hbody.
    + intros [= <- <-]. exists i. split; [constructor | auto].
    + intros H. apply IH in H as (i' & Hv & Hexit). exists i'.
      split; [econstructor; eassumption | exact Hexit].
    + discriminate.
  - intros [= <- <-]. exists i. split; [constructor | auto].
Qed.

(** The result of the loop does not depend on the fuel that suffices. *)
Lemma process_loop_fuel_agree seq ct (f1 : nat) : forall (f2 : nat) i kc m r1 r2,
  process_loop f1 seq ct i kc m = Some r1 ->
  process_loop f2 seq ct i kc m = Some r2 -> r1 = r2.
Proof.
  induction f1 as [|f1 IH]; intros f2 i kc m r1 r2; [discriminate|].
  destruct f2 as [|f2]; [discriminate|]. cbn [process_loop].
  destruct (loop_test m seq i); [|congruence].
  destruct (process_body seq ct i kc m) as [|kc1 m1|e]; try congruence.
  apply IH.
Qed.

(** From a state that a run goes through, the loop gives what the run
    gives. *)
Lemma visits_process_loop seq ct i kc m i' kc' m' :
  visits seq ct i kc m i' kc' m' ->
  forall (fuel' : nat) r,
    process_loop fuel' seq ct i' kc' m' = Some r ->
    exists fuel : nat, process_loop fuel seq ct i kc m = Some r.
Proof.
  induction 1 as [i kc m | i kc m kc1 m1 i' kc' m' Htest Hbody _ IH];
    intros fuel' r Hr.
  - exists fuel'. exact Hr.
  - destruct (IH fuel' r Hr) as [fuel Hfuel]. exists (S fuel).
    cbn [process_loop]. rewrite Htest, Hbody. exact Hfuel.
Qed.

(** The position of a run does not pass the last deletion point by more
    than one. *)
Lemma visits_position_upper seq ct i kc m i' kc' m' :
  visits seq ct i kc m i' kc' m' ->
  0 <= k m -> 0 <= delsize m -> strlen seq <= string_max_size ->
  0 <= i -> i + k m + delsize m < 2 ^ 64 ->
  i' <= Z.max i (strlen seq - k m - delsize m + 1).
Proof.
  unfold string_max_size.
  induction 1 as [i kc m | i kc m kc1 m1 i' kc' m' Htest Hbody _ IH];
    intros Hk Hd Hmax Hi Hlt; [lia|].
  rewrite loop_test_true in Htest by assumption. apply Z.leb_le in Htest.
  apply process_body_frame in Hbody as [(Hk1 & _ & Hd1) _].
  rewrite ulong_small, Hk1, Hd1 in IH by lia. lia.
Qed.

End Runs.

(** * The properties of the specification *)

Section Claims.

Context {Sampler Logger : Type}.
Context {policy : SkipPolicy Sampler} {reporter : Reporter Logger}.
Implicit Types m : MutatorDel Sampler Logger.

(** C1. The spec's example, for any mutator with k = 3, deletion size 2 and
    no limit, and a counting table of 3-mers. On "AAACCCGGGTTT" (12
    characters) [process] returns; its loop starts at position 2 and leaves
    at position 8, where the loop condition fails, with the total and the
    mutator that [process] returns; the positions at which the loop runs
    its body on the way, and from whose state the loop goes on to that same
    result, are exactly 2 to 7. At position 2 the left flank is
    substr(0, 2), "AA", the right flank is substr(4, 3), "CCG", and the
    junction string is "AACCG", of 5 = 2k - 1 characters; when the policy
    keeps position 2, the body builds the event of "AACCG" there. *)
Theorem C1_example m ct :
  k m = 3 -> delsize m = 2 -> limit m = 0 -> ksize ct = 3 ->
  let seq := "AAACCCGGGTTT"%string in
  strlen seq = 12 /\
  uint (k m - 1) = 2 /\
  (exists total m',
     process seq ct m = Some (Ok (total, m')) /\
     visits seq ct (uint (k m - 1)) 0 m 8 total m' /\
     loop_test m' seq 8 = false /\
     forall i,
       (exists kc mi,
          visits seq ct (uint (k m - 1)) 0 m i kc mi /\
          loop_test mi seq i = true /\
          (exists kc1 m1, process_body seq ct i kc mi = Next kc1 m1) /\
          (exists fuel : nat,
             process_loop fuel seq ct i kc mi = Some (Ok (total, m'))))
       <-> 2 <= i <= 7) /\
  left_flank m seq 2 = substr seq 0 2 /\ substr seq 0 2 = Some "AA"%string /\
  right_flank m seq 2 = substr seq 4 3 /\ substr seq 4 3 = Some "CCG"%string /\
  delseq_at m seq 2 = Ok "AACCG"%string /\
  strlen "AACCG" = 5 /\ 5 = 2 * k m - 1 /\
  (fst (skip_draw (sampler m)) = false ->
   exists lg,
     process_body seq ct 2 0 m =
       Next 3 (with_logger
                 (after_event ct "AACCG"
                    (with_delcount (with_sampler m (snd (skip_draw (sampler m))))
                                   (ulong (delcount m + 1)))) lg)).
Proof.
  intros Hk Hd HL Hks seq.
  assert (Hlen : strlen seq = 12) by reflexivity.
  assert (Hcfg : config_ok m ct).
  { unfold config_ok, kmer_size_ok, is_uint. rewrite Hk, Hd, Hks. lia. }
  assert (Hmax : strlen seq <= string_max_size)
    by (rewrite Hlen; unfold string_max_size; lia).
  assert (Hjunction : delseq_at m seq 2 = Ok "AACCG"%string)
    by (unfold delseq_at, left_flank, right_flank; rewrite Hk, Hd; reflexivity).
  split; [exact Hlen|].
  replace (uint (k m - 1)) with 2 by (rewrite Hk; reflexivity).
  split; [reflexivity|].
  split; [|unfold left_flank, right_flank; rewrite Hk, Hd;
           repeat split; try reflexivity; try assumption].
  - destruct (process_loop_returns seq ct (windows m seq)
                (S (String.length seq)) 2 0 m) as (total & m' & Hrun & _);
      try assumption;
      try (unfold windows, strlen in *; rewrite ?Hk, ?Hd; lia).
    exists total, m'.
    assert (Hprocess : process seq ct m = Some (Ok (total, m')))
      by (unfold process; rewrite Hk; exact Hrun).
    split; [exact Hprocess|].
    destruct (process_loop_Ok_exit _ _ _ _ _ _ _ _ Hrun) as (i' & Hv & Hexit).
    pose proof (visits_position _ _ _ _ _ _ _ _ Hv) as Hpos.
    destruct Hpos as ((Hk' & HL' & Hd') & Hlow & Hlt); try assumption; try lia.
    pose proof (visits_position_upper _ _ _ _ _ _ _ _ Hv) as Hup.
    rewrite Hk, Hd, Hlen in Hup. specialize (Hup ltac:(lia) ltac:(lia) Hmax
                                               ltac:(lia) ltac:(lia)).
    assert (Htest : loop_test m' seq i' = false).
    { destruct Hexit as [Htest|Hbreak]; [exact Htest|].
      apply process_body_Break_limit in Hbreak. lia. }
    assert (Hi' : i' = 8).
    { rewrite loop_test_true in Htest by lia. apply Z.leb_gt in Htest. lia. }
    subst i'. split; [exact Hv|]. split; [exact Htest|].
    intros i. split.
    + intros (kc & mi & Hvi & Htesti & _).
      apply visits_position in Hvi as ((Hki & _ & Hdi) & Hle & Hlti);
        try assumption; try lia.
      rewrite loop_test_true in Htesti by lia. apply Z.leb_le in Htesti. lia.
    + intros Hi.
      destruct (visits_all_windows seq ct m (Z.to_nat (i - 2)) Hcfg Hmax)
        as (kc & mi & Hvi & Hsame); [lia | unfold in_window; lia|].
      rewrite Hk in Hvi.
      replace (3 - 1 + Z.of_nat (Z.to_nat (i - 2))) with i in Hvi by lia.
      change (3 - 1) with 2 in Hvi.
      pose proof Hsame as (Hki & HLi & Hdi).
      pose proof (config_ok_same _ _ _ Hsame Hcfg) as Hcfgi.
      exists kc, mi. split; [exact Hvi|].
      split; [rewrite (loop_test_same m mi) by assumption;
              rewrite loop_test_true by lia; apply Z.leb_le; lia|].
      split.
      * destruct (process_body_in_window seq ct i kc mi) as (m1 & Hbody & _);
          [assumption | assumption | unfold in_window; lia | lia |]. eauto.
      * destruct (process_loop_returns seq ct (windows m seq)
                    (S (String.length seq)) i kc mi) as (kc' & m'' & Hruni & _);
          try assumption;
          try (unfold windows, strlen in *; rewrite ?Hki, ?Hdi, ?Hk, ?Hd; lia).
        exists (S (String.length seq)). rewrite Hruni. f_equal.
        destruct (visits_process_loop _ _ _ _ _ _ _ _ Hvi _ _ Hruni) as [fuel Hfuel].
        exact (process_loop_fuel_agree _ _ _ _ _ _ _ _ _ Hfuel Hrun).
  - intros Hkeep.
    destruct (process_body_in_window seq ct 2 0 m) as (m1 & Hbody & _);
      [assumption | assumption | unfold in_window; lia | lia |].
    rewrite Hkeep in Hbody.
    pose proof (process_body_Next _ _ _ _ _ _ _ Hbody) as [_ Hcases].
    rewrite Hkeep in Hcases.
    destruct Hcases as [(Hno & _)|(_ & _ & delseq & lg & Hdel & ->)];
      [discriminate|].
    rewrite Hjunction in Hdel. injection Hdel as <-.
    exists lg. rewrite Hbody, Hk. reflexivity.
Qed.

(** The size assertion within the range of k. With a k-mer size in range
    (1 <= k < 2^31) and a sequence no longer
    than a string can be, at every deletion point [k - 1 <= i <= length - k - d] the junction
    string is built without an exception, passes the size assertion and has
    exactly [2k - 1] characters, whatever the deletion size and the length
    of the sequence; no run of [process], with any counting table, limit,
    sampling policy and logger, ends in the size assertion or in an
    exception of [substr]; and with a counting table of the mutator's k-mer
    size the run returns. *)
Theorem C2_junction_length m seq ct :
  kmer_size_ok m -> is_uint (delsize m) -> strlen seq <= string_max_size ->
  (forall i, in_window m seq i ->
     exists delseq, delseq_at m seq i = Ok delseq /\ strlen delseq = 2 * k m - 1) /\
  process seq ct m <> Some (Err DelseqSizeAssertion) /\
  process seq ct m <> Some (Err OutOfRange) /\
  (ksize ct = k m ->
   exists total m', process seq ct m = Some (Ok (total, m'))).
Proof.
  intros Hk [Hd Hd'] Hmax. unfold kmer_size_ok in Hk.
  assert (Hwin : forall m' i', same_config m m' -> in_window m' seq i' ->
            exists delseq, delseq_at m' seq i' = Ok delseq /\ strlen delseq = 2 * k m - 1).
  { intros m' i' (Hk' & _ & Hd'') Hi'.
    destruct (flanks_in_window m' seq i') as (l & r & _ & _ & Hl & Hr & _ & _ & ->);
      try assumption; try lia.
    exists (l ++ r)%string. split; [reflexivity|]. rewrite strlen_append. lia. }
  split; [intros i Hi; apply Hwin; [apply same_config_refl | assumption]|].
  assert (Hno : forall e, process seq ct m = Some (Err e) -> e = KmerCountAssertion).
  { intros e He. unfold process in He. rewrite uint_small in He by lia.
    apply process_loop_Err in He as (i' & kc' & m' & Hv & Htest & Hbody).
    apply visits_position in Hv as (Hsame & Hle & Hlt); try lia.
    pose proof Hsame as (Hk' & _ & Hd'').
    rewrite loop_test_true in Htest by lia. apply Z.leb_le in Htest.
    apply process_body_Raise in Hbody as [Hbody|]; [|assumption].
    destruct (Hwin m' i' Hsame) as (delseq & Hdel & _); [unfold in_window; lia|].
    congruence. }
  split; [intros He; apply Hno in He; discriminate|].
  split; [intros He; apply Hno in He; discriminate|].
  intros Hks. unfold string_max_size in Hmax.
  destruct (process_loop_returns seq ct (windows m seq)
              (S (String.length seq)) (k m - 1) 0 m) as (total & m' & Hrun & _);
    try assumption; try (unfold windows, strlen in *; lia).
  { unfold config_ok, kmer_size_ok, is_uint. auto. }
  exists total, m'. unfold process. rewrite uint_small by lia. exact Hrun.
Qed.

(** C3. Constructing the event of a junction string of [2k - 1] characters,
    with a counting table of the mutator's k-mer size: the table extracts
    exactly k k-mers, the j-th being the k characters from position j; the
    event's abundance vector holds their abundances in that order (so it
    has length k); the abundance histogram has been incremented at each of
    these values, first to last; the unique-count histogram has been
    incremented once, at the number of zero abundances; nothing else in the
    mutator has changed. *)
Theorem C3_new_Deletion seq m ct :
  kmer_size_ok m -> ksize ct = k m -> strlen seq = 2 * k m - 1 ->
  let kmers := get_kmers ct seq in
  let freqs := map (fun kmer => uint (get_count ct kmer)) kmers in
  Z.of_nat (length kmers) = k m /\
  (forall j : nat, Z.of_nat j < k m ->
     nth j kmers EmptyString = substring j (Z.to_nat (k m)) seq) /\
  Z.of_nat (length freqs) = k m /\
  new_Deletion seq m ct =
    Ok (mkDeletion seq freqs,
        mkMutatorDel (k m) (limit m)
          (fold_left (fun h v => hist_increment v h) freqs (abund_hist m))
          (hist_increment
             (Z.of_nat (length (List.filter (fun v => v =? 0) freqs)))
             (unique_hist m))
          (sampler m) (logger m) (delcount m) (delsize m)).
Proof.
  intros [Hk _] Hks Hlen kmers freqs.
  destruct (new_Deletion_ok seq m ct Hk Hks Hlen) as [Hn Hnew].
  split; [exact Hn|]. split; [|split].
  - intros j Hj. subst kmers. rewrite get_kmers_nth by lia. now rewrite Hks.
  - subst freqs. now rewrite length_map.
  - exact Hnew.
Qed.

(** C4. On a sequence shorter than [2k + d - 1], [process] returns 0 and
    leaves the mutator as it was: the deletion counter, both histograms,
    and also the sampling policy and the logger. *)
Theorem C4_short_sequence seq ct m :
  is_uint (k m) -> is_uint (delsize m) ->
  strlen seq < 2 * k m + delsize m - 1 ->
  process seq ct m = Some (Ok (0, m)).
Proof.
  intros [Hk Hk'] [Hd Hd'] Hshort. unfold process. cbn [process_loop].
  assert (Hstart : 0 <= uint (k m - 1) < 2 ^ 32)
    by (unfold uint; apply Z.mod_pos_bound; lia).
  rewrite loop_test_true by lia.
  destruct (Z.leb_spec (uint (k m - 1) + k m + delsize m) (strlen seq)) as [Hle|_];
    [|reflexivity].
  exfalso. destruct (Z.eq_dec (k m) 0) as [H0|H0].
  - pose proof (strlen_nonneg seq). lia.
  - rewrite uint_small in Hle by lia. lia.
Qed.

(** C5. With a limit [L > 0] and a counter that starts at 0, every state
    the loop of [process] goes through has the limit unchanged and a counter
    of at most [L + 1]; from a state whose counter exceeds [L] the loop
    returns at once, with the running total and the mutator as they are;
    and the mutator that [process] returns has a counter of at most
    [L + 1]. *)
Theorem C5_counter_within_limit seq ct m :
  0 < limit m -> delcount m = 0 ->
  (forall i kc m',
     visits seq ct (uint (k m - 1)) 0 m i kc m' ->
     limit m' = limit m /\ 0 <= delcount m' <= limit m + 1 /\
     (limit m < delcount m' ->
      process_body seq ct i kc m' = Break /\
      forall fuel : nat,
        process_loop (S fuel) seq ct i kc m' = Some (Ok (kc, m')))) /\
  (forall kc m',
     process seq ct m = Some (Ok (kc, m')) -> delcount m' <= limit m + 1).
Proof.
  intros HL Hc.
  assert (Hinv : forall i kc m',
            visits seq ct (uint (k m - 1)) 0 m i kc m' ->
            limit m' = limit m /\ 0 <= delcount m' <= limit m + 1).
  { intros i kc m' Hv. eapply visits_delcount; [eassumption | lia | lia]. }
  split.
  - intros i kc m' Hv. destruct (Hinv _ _ _ Hv) as [HL' Hc'].
    split; [assumption|]. split; [assumption|]. intros Hover.
    assert (Hbreak : process_body seq ct i kc m' = Break)
      by (apply process_body_Break; lia).
    split; [assumption|]. intros fuel. cbn [process_loop]. rewrite Hbreak.
    destruct (loop_test m' seq i); reflexivity.
  - intros kc m' Hrun. unfold process in Hrun.
    apply process_loop_Ok in Hrun as [i Hv]. apply Hinv in Hv. lia.
Qed.


(** C7, as the code has it. At every deletion point [i] the left flank is
    the substring of length [k - 1] that ends at position [i - 1] inclusive
    (it starts at [i - k + 1] and stops just before [i]); the right flank is
    the substring of length [k] that starts at position [i + d]; and the
    junction string is the left flank followed by the right flank. *)
Theorem C7_flanks m seq i :
  kmer_size_ok m -> is_uint (delsize m) ->
  strlen seq <= string_max_size -> in_window m seq i ->
  exists l r,
    left_flank m seq i = Some l /\ right_flank m seq i = Some r /\
    substring_ending_at seq (i - 1) (k m - 1) = Some l /\
    substr seq (i + delsize m) (k m) = Some r /\
    strlen l = k m - 1 /\ strlen r = k m /\
    (forall j : nat, Z.of_nat j < k m - 1 ->
       get j l = get (j + Z.to_nat (i - k m + 1)) seq) /\
    (forall j : nat, Z.of_nat j < k m ->
       get j r = get (j + Z.to_nat (i + delsize m)) seq) /\
    delseq_at m seq i = Ok (l ++ r)%string.
Proof.
  intros Hk [Hd Hd'] Hmax Hwin. unfold kmer_size_ok in Hk.
  destruct (flanks_in_window m seq i) as (l & r & HL & HR & Hll & Hrl & Hlg & Hrg & Hdel);
    try assumption; try lia.
  exists l, r. unfold in_window, string_max_size in *.
  assert (Hmin1 : ulong (ulong (i - k m) + 1) = i - k m + 1).
  { rewrite ulong_add_idemp_l. apply ulong_small. lia. }
  repeat split; try assumption.
  - rewrite <- HL. unfold substring_ending_at, left_flank.
    rewrite Hmin1, uint_small by lia. f_equal. lia.
  - rewrite <- HR. unfold right_flank. rewrite ulong_small by lia. reflexivity.
Qed.

(** C8. [print] appends three lines to the stream and returns nothing else
    (the event and the mutator are only read): ">" and the junction string;
    k spaces and "|"; the abundances in order, in decimal, with one space
    between them. For k = 3 and the abundances 5, 0, 2 the second line is
    three spaces and "|" and the third is "5 0 2". *)
Theorem C8_print del m stream :
  Z.of_nat (length (abunds del)) = k m ->
  print del m stream =
    (stream ++ (">" ++ sequence del) ++ nl
            ++ (spaces (Z.to_nat (k m)) ++ "|") ++ nl
            ++ String.concat " " (map show_uint (abunds del)) ++ nl)%string /\
  (abunds del = [5; 0; 2] ->
   print del m stream =
     (stream ++ (">" ++ sequence del) ++ nl ++ "   |" ++ nl ++ "5 0 2" ++ nl)%string).
Proof.
  intros Hlen.
  assert (Hgen : print del m stream =
    (stream ++ (">" ++ sequence del) ++ nl
            ++ (spaces (Z.to_nat (k m)) ++ "|") ++ nl
            ++ String.concat " " (map show_uint (abunds del)) ++ nl)%string).
  { unfold print. rewrite <- Hlen, Nat2Z.id.
    rewrite fold_spaces, fold_abunds. rewrite !append_assoc. reflexivity. }
  split; [exact Hgen|].
  intros Hab. rewrite Hgen, <- Hlen, Hab. reflexivity.
Qed.

(** C9, as the code has it. With no limit set, calling [process] on a first
    and then on a second sequence with one mutator leaves histograms that
    are, bucket by bucket, the sums of those a run on the first sequence
    leaves and those a run on the second sequence leaves in a second
    mutator with the same parameters whose histograms start empty and whose
    sampling policy starts in the state the first call left (its state
    after one draw for each deletion point of the first sequence). *)
Theorem C9_histograms_add seq1 seq2 ct m mb :
  config_ok m ct -> limit m = 0 ->
  strlen seq1 <= string_max_size -> strlen seq2 <= string_max_size ->
  same_config m mb -> abund_hist mb = ∅ -> unique_hist mb = ∅ ->
  sampler mb = draws (windows m seq1) (sampler m) ->
  exists t1 m1 t2 m12 m2,
    process seq1 ct m = Some (Ok (t1, m1)) /\
    process seq2 ct m1 = Some (Ok (t2, m12)) /\
    process seq2 ct mb = Some (Ok (t2, m2)) /\
    abund_hist m12 = abund_hist m1 ⊎ abund_hist m2 /\
    unique_hist m12 = unique_hist m1 ⊎ unique_hist m2 /\
    (forall v, hist_count (abund_hist m12) v =
               hist_count (abund_hist m1) v + hist_count (abund_hist m2) v) /\
    (forall v, hist_count (unique_hist m12) v =
               hist_count (unique_hist m1) v + hist_count (unique_hist m2) v).
Proof.
  intros Hcfg HL Hmax1 Hmax2 Hsame HA HU Hs.
  pose proof Hcfg as (Hk & [Hd Hd'] & _); unfold kmer_size_ok in Hk.
  pose proof Hsame as (Hkb & HLb & Hdb).
  destruct (process_loop_unlimited seq1 ct (windows m seq1)
              (S (String.length seq1)) (k m - 1) 0 m) as (m1 & Hrun1 & Hsame1 & Hs1 & _);
    try assumption;
    try (unfold windows, strlen, string_max_size in *; lia).
  pose proof Hsame1 as (Hk1 & HL1 & Hd1).
  destruct (process_loop_returns seq2 ct (windows mb seq2)
              (S (String.length seq2)) (k mb - 1) 0 mb) as (t2 & m2 & Hrun2 & _);
    try (eapply config_ok_same; eassumption); try assumption;
    try (unfold windows, strlen, string_max_size in *; lia).
  assert (Hrel : shifted (abund_hist m1) (unique_hist m1) mb m1).
  { unfold shifted. rewrite HA, HU, Hs, Hs1. repeat split; try congruence;
      multiset_solver. }
  destruct (process_loop_shifted _ _ _ _ _ _ _ _ _ _ _ Hrel Hrun2)
    as (m12 & Hrun12 & (_ & _ & _ & _ & _ & HA12 & HU12)).
  exists (ulong (0 + retained (windows m seq1) (sampler m) * k m)), m1, t2, m12, m2.
  rewrite Hkb in Hrun2, Hrun12.
  unfold process. rewrite Hk1, Hkb, !uint_small by lia.
  split; [exact Hrun1|]. split; [exact Hrun12|]. split; [exact Hrun2|].
  assert (HA' : abund_hist m12 = abund_hist m1 ⊎ abund_hist m2)
    by (rewrite HA12; apply (comm_L (⊎))).
  assert (HU' : unique_hist m12 = unique_hist m1 ⊎ unique_hist m2)
    by (rewrite HU12; apply (comm_L (⊎))).
  split; [exact HA'|]. split; [exact HU'|].
  split; intros v; [rewrite HA' | rewrite HU']; apply hist_count_sum.
Qed.

(** C10. With a limit [L > 0], a counter that starts at 0, a policy that
    never skips and at least [L + 2] deletion points, [process] returns
    after exactly [L + 1] events, not [L]: the counter is [L + 1], the total
    is [(L + 1) * k], and the unique-count histogram, which every event
    increments once, has [L + 1] more entries. *)
Theorem C10_limit_allows_one_more seq ct m :
  config_ok m ct -> strlen seq <= string_max_size ->
  (forall s : Sampler, fst (skip_draw s) = false) ->
  0 < limit m -> delcount m = 0 ->
  limit m + 2 <= Z.of_nat (windows m seq) ->
  exists m',
    process seq ct m = Some (Ok (ulong ((limit m + 1) * k m), m')) /\
    fst (get_mut_count m') = limit m + 1 /\
    Z.of_nat (size (unique_hist m')) =
      Z.of_nat (size (unique_hist m)) + (limit m + 1).
Proof.
  intros Hcfg Hmax Hns HL Hc Hwin.
  pose proof Hcfg as (Hk & [Hd Hd'] & _); unfold kmer_size_ok in Hk.
  unfold string_max_size in Hmax.
  destruct (process_loop_limited seq ct (windows m seq)
              (S (String.length seq)) (k m - 1) 0 m) as (m' & Hrun & _ & Hc');
    try assumption; try (unfold windows, strlen in *; lia).
  exists m'. unfold process. rewrite uint_small by lia.
  rewrite Hc, Z.sub_0_r, Z.add_0_l in Hrun.
  split; [exact Hrun|]. split; [exact Hc'|].
  destruct (process_loop_Ok _ _ _ _ _ _ _ _ Hrun) as [i' Hv].
  apply visits_event_count in Hv; [| unfold windows, strlen in *; lia | lia].
  lia.
Qed.

End Claims.

(** * The properties on concrete runs *)

(** The example on a mutator that logs every event and a table that knows two
    of the 3-mers: six events, eighteen k-mers. *)
Lemma C1_example_witness :
  (k example_mutator = 3 /\ delsize example_mutator = 2 /\
   limit example_mutator = 0 /\ ksize sample_table = 3) /\
  (exists m',
     process example_sequence sample_table example_mutator = Some (Ok (18, m')) /\
     delcount m' = 6 /\
     visits example_sequence sample_table 2 0 example_mutator 8 18 m' /\
     forall i,
       (exists kc mi,
          visits example_sequence sample_table 2 0 example_mutator i kc mi /\
          loop_test mi example_sequence i = true /\
          (exists kc1 m1,
             process_body example_sequence sample_table i kc mi = Next kc1 m1) /\
          (exists fuel : nat,
             process_loop fuel example_sequence sample_table i kc mi
             = Some (Ok (18, m'))))
       <-> 2 <= i <= 7) /\
  delseq_at example_mutator example_sequence 2 = Ok "AACCG"%string.
Proof.
  pose proof (C1_example example_mutator sample_table eq_refl eq_refl eq_refl eq_refl) as H.
  cbv zeta in H.
  destruct H as (_ & _ & (total & m' & Hrun & Hv & _ & Hi) & _ & _ & _ & _ & Hd & _).
  split; [repeat split|]. split; [|exact Hd].
  assert (Hcomputed : exists m'',
            process example_sequence sample_table example_mutator
            = Some (Ok (18, m'')) /\ delcount m'' = 6)
    by (eexists; split; [vm_compute; reflexivity | reflexivity]).
  destruct Hcomputed as (m'' & Hrun' & Hcount).
  pose proof (eq_trans (eq_sym Hrun) Hrun') as Heq. injection Heq as -> ->.
  exists m''. split; [exact Hrun|]. split; [exact Hcount|].
  split; [exact Hv | exact Hi].
Defined.

(** The last deletion point of the example, and its run. *)
Lemma C2_junction_length_witness :
  (kmer_size_ok example_mutator /\ is_uint (delsize example_mutator) /\
   strlen example_sequence <= string_max_size /\
   in_window example_mutator example_sequence 7) /\
  (exists delseq,
     delseq_at example_mutator example_sequence 7 = Ok delseq /\
     strlen delseq = 2 * 3 - 1) /\
  process example_sequence sample_table example_mutator
    <> Some (Err DelseqSizeAssertion).
Proof.
  assert (H1 : kmer_size_ok example_mutator) by in_range.
  assert (H2 : is_uint (delsize example_mutator)) by in_range.
  assert (H3 : strlen example_sequence <= string_max_size) by in_range.
  assert (H4 : in_window example_mutator example_sequence 7) by in_range.
  destruct (C2_junction_length example_mutator example_sequence sample_table H1 H2 H3)
    as (Hj & Ha & _).
  split; [auto|]. split; [exact (Hj 7 H4) | exact Ha].
Defined.

(** The event of the junction string "AACCG": abundances 5, 0, 2, one of
    them zero. *)
Lemma C3_new_Deletion_witness :
  (kmer_size_ok example_mutator /\ ksize sample_table = k example_mutator /\
   strlen "AACCG" = 2 * k example_mutator - 1) /\
  new_Deletion "AACCG" example_mutator sample_table =
    Ok (mkDeletion "AACCG" [5; 0; 2],
        mkMutatorDel 3 0 {[+ 5; 0; 2 +]} {[+ 1 +]} tt chatty_logger 0 2).
Proof.
  assert (H1 : kmer_size_ok example_mutator) by in_range.
  destruct (C3_new_Deletion "AACCG" example_mutator sample_table H1 eq_refl eq_refl)
    as (_ & _ & _ & H).
  split; [auto|]. rewrite H. vm_compute. reflexivity.
Defined.

(** Six characters are fewer than the seven that k = 3 and d = 2 need. *)
Lemma C4_short_sequence_witness :
  (is_uint (k example_mutator) /\ is_uint (delsize example_mutator) /\
   strlen "AAACCC" < 2 * k example_mutator + delsize example_mutator - 1) /\
  process "AAACCC" sample_table example_mutator = Some (Ok (0, example_mutator)).
Proof.
  assert (H1 : is_uint (k example_mutator)) by in_range.
  assert (H2 : is_uint (delsize example_mutator)) by in_range.
  assert (H3 : strlen "AAACCC" < 2 * k example_mutator + delsize example_mutator - 1)
    by in_range.
  split; [auto|]. exact (C4_short_sequence "AAACCC" sample_table example_mutator H1 H2 H3).
Defined.

(** The example under a limit of 2. *)
Lemma C5_counter_within_limit_witness :
  (0 < limit (limited_mutator 2) /\ delcount (limited_mutator 2) = 0) /\
  forall kc m',
    process example_sequence sample_table (limited_mutator 2) = Some (Ok (kc, m')) ->
    delcount m' <= 2 + 1.
Proof.
  assert (H1 : 0 < limit (limited_mutator 2)) by (cbn; lia).
  split; [auto|].
  exact (proj2 (C5_counter_within_limit example_sequence sample_table
                  (limited_mutator 2) H1 eq_refl)).
Defined.


(** The flanks at deletion point 3 of the example. *)
Lemma C7_flanks_witness :
  (kmer_size_ok example_mutator /\ is_uint (delsize example_mutator) /\
   strlen example_sequence <= string_max_size /\
   in_window example_mutator example_sequence 3) /\
  exists l r,
    left_flank example_mutator example_sequence 3 = Some l /\
    substring_ending_at example_sequence (3 - 1) (3 - 1) = Some l /\
    delseq_at example_mutator example_sequence 3 = Ok (l ++ r)%string.
Proof.
  assert (H1 : kmer_size_ok example_mutator) by in_range.
  assert (H2 : is_uint (delsize example_mutator)) by in_range.
  assert (H3 : strlen example_sequence <= string_max_size) by in_range.
  assert (H4 : in_window example_mutator example_sequence 3) by in_range.
  destruct (C7_flanks example_mutator example_sequence 3 H1 H2 H3 H4)
    as (l & r & HL & _ & HE & _ & _ & _ & _ & _ & HD).
  split; [auto|]. exists l, r. auto.
Defined.

(** The diagram of the spec: k = 3, abundances 5, 0, 2. *)
Lemma C8_print_witness :
  Z.of_nat (length (abunds (mkDeletion "AACCG" [5; 0; 2]))) = k example_mutator /\
  print (mkDeletion "AACCG" [5; 0; 2]) example_mutator EmptyString =
    (">AACCG" ++ nl ++ "   |" ++ nl ++ "5 0 2" ++ nl)%string.
Proof.
  split; [reflexivity|].
  exact (proj2 (C8_print (mkDeletion "AACCG" [5; 0; 2]) example_mutator EmptyString
                  eq_refl) eq_refl).
Defined.

(** Two calls without a limit, every other deletion point skipped. *)
Lemma C9_histograms_add_witness :
  let second : MutatorDel bool TextLogger :=
    mkMutatorDel 3 0 ∅ ∅ (draws (windows sampling_mutator example_sequence) false)
                 quiet_logger 0 2 in
  (config_ok sampling_mutator sample_table /\ limit sampling_mutator = 0 /\
   same_config sampling_mutator second /\
   abund_hist second = ∅ /\ unique_hist second = ∅) /\
  exists t1 m1 t2 m12 m2,
    process example_sequence sample_table sampling_mutator = Some (Ok (t1, m1)) /\
    process "AACAACCGG" sample_table m1 = Some (Ok (t2, m12)) /\
    process "AACAACCGG" sample_table second = Some (Ok (t2, m2)) /\
    abund_hist m12 = abund_hist m1 ⊎ abund_hist m2 /\
    unique_hist m12 = unique_hist m1 ⊎ unique_hist m2.
Proof.
  intros second.
  assert (H1 : config_ok sampling_mutator sample_table) by in_range.
  assert (H2 : strlen example_sequence <= string_max_size) by in_range.
  assert (H3 : strlen "AACAACCGG" <= string_max_size) by in_range.
  assert (H4 : same_config sampling_mutator second) by (repeat split).
  destruct (C9_histograms_add example_sequence "AACAACCGG" sample_table
              sampling_mutator second H1 eq_refl H2 H3 H4 eq_refl eq_refl eq_refl)
    as (t1 & m1 & t2 & m12 & m2 & R1 & R12 & R2 & HA & HU & _).
  split; [repeat split; assumption|].
  exists t1, m1, t2, m12, m2. auto.
Defined.

(** The example under a limit of 2: three events of the six possible. *)
Lemma C10_limit_allows_one_more_witness :
  (config_ok (limited_mutator 2) sample_table /\
   strlen example_sequence <= string_max_size /\
   (forall s : unit, fst (skip_draw s) = false) /\
   0 < limit (limited_mutator 2) /\ delcount (limited_mutator 2) = 0 /\
   limit (limited_mutator 2) + 2 <= Z.of_nat (windows (limited_mutator 2) example_sequence)) /\
  exists m',
    process example_sequence sample_table (limited_mutator 2) = Some (Ok (9, m')) /\
    fst (get_mut_count m') = 3 /\
    size (unique_hist m') = 3%nat.
Proof.
  assert (H1 : config_ok (limited_mutator 2) sample_table) by in_range.
  assert (H2 : strlen example_sequence <= string_max_size) by in_range.
  assert (H3 : forall s : unit, fst (skip_draw s) = false) by (intros []; reflexivity).
  assert (H4 : 0 < limit (limited_mutator 2)) by reflexivity.
  assert (H5 : limit (limited_mutator 2) + 2
               <= Z.of_nat (windows (limited_mutator 2) example_sequence))
    by (vm_compute; intro; discriminate).
  destruct (C10_limit_allows_one_more example_sequence sample_table (limited_mutator 2)
              H1 H2 H3 H4 eq_refl H5) as (m' & Hrun & Hcount & Hsize).
  split; [repeat split; assumption|].
  exists m'. split; [exact Hrun|]. split; [exact Hcount|].
  apply Nat2Z.inj. rewrite Hsize. reflexivity.
Defined.

(** C7 as the spec words it fails: at deletion point 3 of the example the
    code's left flank is "AA", the characters at positions 1 and 2, while
    the two characters ending at position 3 inclusive are "AC". *)
Lemma C7_left_flank_counterexample :
  in_window example_mutator example_sequence 3 /\
  left_flank example_mutator example_sequence 3 = Some "AA"%string /\
  substring_ending_at example_sequence 3 (k example_mutator - 1) = Some "AC"%string /\
  left_flank example_mutator example_sequence 3
    <> substring_ending_at example_sequence 3 (k example_mutator - 1).
Proof.
  split; [in_range|]. split; [reflexivity|]. split; [reflexivity|].
  vm_compute. intro H. discriminate H.
Qed.

(** C9 as the spec words it fails in three ways. With a limit of 1, the
    second call on the shared mutator stops at once (the counter is already
    2), so its histograms are those of the first call alone. With a policy
    that skips every other deletion point, the second call starts where the
    first left the policy and keeps one event, where a mutator in the
    initial state keeps two. With histograms that are not empty at the
    start, the sum counts the initial entries twice. *)
Lemma C9_histograms_add_counterexample :
  (exists t1 m1 t2 m12 t2' m2,
     process example_sequence sample_table (limited_mutator 1) = Some (Ok (t1, m1)) /\
     process "AACAACCGG" sample_table m1 = Some (Ok (t2, m12)) /\
     process "AACAACCGG" sample_table (limited_mutator 1) = Some (Ok (t2', m2)) /\
     hist_count (abund_hist m12) 0 = 3 /\
     hist_count (abund_hist m1) 0 + hist_count (abund_hist m2) 0 = 7) /\
  (exists t1 m1 t2 m12 t2' m2,
     process "AACAACCGG" sample_table sampling_mutator = Some (Ok (t1, m1)) /\
     process "AACAACCGG" sample_table m1 = Some (Ok (t2, m12)) /\
     process "AACAACCGG" sample_table sampling_mutator = Some (Ok (t2', m2)) /\
     hist_count (abund_hist m12) 0 = 7 /\
     hist_count (abund_hist m1) 0 + hist_count (abund_hist m2) 0 = 10) /\
  (exists t1 m1 t2 m12 t2' m2,
     process example_sequence sample_table used_mutator = Some (Ok (t1, m1)) /\
     process "AACAACCGG" sample_table m1 = Some (Ok (t2, m12)) /\
     process "AACAACCGG" sample_table used_mutator = Some (Ok (t2', m2)) /\
     hist_count (abund_hist m12) 7 = 1 /\
     hist_count (abund_hist m1) 7 + hist_count (abund_hist m2) 7 = 2).
Proof.
  split; [|split]; do 6 eexists;
    (split; [vm_compute; reflexivity|]);
    (split; [vm_compute; reflexivity|]);
    (split; [vm_compute; reflexivity|]);
    split; vm_compute; reflexivity.
Qed.

(** * Further properties of del.cpp *)

(** ** Substrings *)

Lemma substring_empty (n m : nat) : substring n m EmptyString = EmptyString.
Proof. destruct n, m; reflexivity. Qed.

Lemma substring_no_chars (s : string) : forall n : nat,
  substring n 0 s = EmptyString.
Proof.
  induction s as [|c s IH]; intros [|n]; try reflexivity. apply IH.
Qed.

Lemma substring_append_span (a b : string) : forall n m : nat,
  (n <= String.length a)%nat -> (String.length a <= n + m)%nat ->
  substring n m (a ++ b)
  = (substring n (String.length a - n) a
     ++ substring 0 (n + m - String.length a) b)%string.
Proof.
  induction a as [|c a IH]; intros n m Hn Hm; cbn [String.length] in *.
  - assert (n = 0%nat) by lia. subst n.
    rewrite Nat.add_0_l, !Nat.sub_0_r. reflexivity.
  - rewrite append_cons. destruct n as [|n].
    + destruct m as [|m]; [lia|]. cbn [substring Nat.sub].
      rewrite IH by lia. rewrite append_cons, Nat.sub_0_r.
      repeat f_equal; lia.
    + cbn [substring Nat.sub]. rewrite IH by lia. repeat f_equal; lia.
Qed.

Lemma substring_substring (s : string) : forall n m a b : nat,
  (a + b <= m)%nat ->
  substring a b (substring n m s) = substring (n + a) b s.
Proof.
  induction s as [|c s IH]; intros n m a b Hab.
  - now rewrite !substring_empty.
  - destruct n as [|n]; [|cbn [substring Nat.add]; now apply IH].
    destruct m as [|m].
    + assert (a = 0%nat) by lia. assert (b = 0%nat) by lia. subst. reflexivity.
    + cbn [substring Nat.add]. destruct a as [|a].
      * destruct b as [|b]; [reflexivity|]. cbn [substring].
        f_equal. apply (IH 0%nat m 0%nat b). lia.
      * cbn [substring]. apply (IH 0%nat m a b). lia.
Qed.

Lemma substring_ext (s s' : string) (n m : nat) :
  (forall p : nat, (n <= p < n + m)%nat -> get p s = get p s') ->
  substring n m s = substring n m s'.
Proof.
  intros Hget. apply get_correct. intros p.
  destruct (Nat.lt_ge_cases p m) as [Hlt|Hge].
  - rewrite !substring_correct1 by assumption. apply Hget. lia.
  - now rewrite !substring_correct2 by assumption.
Qed.

(** ** What the junction string is made of *)

Section JunctionContent.

Context {Sampler Logger : Type}.
Implicit Types m : MutatorDel Sampler Logger.

Lemma delseq_at_explicit m seq i :
  kmer_size_ok m -> is_uint (delsize m) ->
  strlen seq <= string_max_size -> in_window m seq i ->
  delseq_at m seq i =
    Ok (substring (Z.to_nat (i - k m + 1)) (Z.to_nat (k m - 1)) seq
        ++ substring (Z.to_nat (i + delsize m)) (Z.to_nat (k m)) seq)%string.
Proof.
  unfold kmer_size_ok, is_uint, string_max_size, in_window.
  intros Hk Hd Hmax Hwin.
  assert (Hmin1 : ulong (ulong (i - k m) + 1) = i - k m + 1).
  { rewrite ulong_add_idemp_l. apply ulong_small. lia. }
  unfold delseq_at, left_flank, right_flank, substr.
  rewrite Hmin1, (uint_small (k m - 1)), (ulong_small (i + delsize m)) by lia.
  destruct (Z.ltb_spec (strlen seq) (i - k m + 1)); [lia|].
  destruct (Z.ltb_spec (strlen seq) (i + delsize m)); [lia|].
  cbv zeta. rewrite assert_size_rhs, strlen_append by lia.
  unfold strlen in *. rewrite !length_substring by lia.
  destruct (Z.eqb_spec (Z.of_nat (Z.to_nat (k m - 1)) + Z.of_nat (Z.to_nat (k m)))
              (2 * k m - 1)); [reflexivity | lia].
Qed.

(** The junction string at a deletion point [i] is the window of [2k - 1]
    characters, from position [i - k + 1] on, of the sequence from which the
    [d] characters at positions [i] to [i + d - 1] have been removed; that
    sequence is [d] characters shorter than the input. *)
Theorem junction_is_window_of_deleted_sequence m seq i :
  kmer_size_ok m -> is_uint (delsize m) ->
  strlen seq <= string_max_size -> in_window m seq i ->
  delseq_at m seq i =
    Ok (substring (Z.to_nat (i - k m + 1)) (Z.to_nat (2 * k m - 1))
          (delete_span seq (Z.to_nat i) (Z.to_nat (delsize m)))) /\
  strlen (delete_span seq (Z.to_nat i) (Z.to_nat (delsize m)))
    = strlen seq - delsize m.
Proof.
  intros Hk Hd Hmax Hwin. rewrite delseq_at_explicit by assumption.
  unfold kmer_size_ok, is_uint, string_max_size, in_window, strlen in *.
  unfold delete_span.
  set (P := substring 0 (Z.to_nat i) seq).
  set (S := substring (Z.to_nat i + Z.to_nat (delsize m))
              (String.length seq - (Z.to_nat i + Z.to_nat (delsize m))) seq).
  assert (HP : String.length P = Z.to_nat i)
    by (subst P; apply length_substring; lia).
  assert (HS : String.length S
               = (String.length seq - (Z.to_nat i + Z.to_nat (delsize m)))%nat)
    by (subst S; apply length_substring; lia).
  split.
  - rewrite substring_append_span by lia. rewrite HP.
    replace (Z.to_nat i - Z.to_nat (i - k m + 1))%nat
      with (Z.to_nat (k m - 1)) by lia.
    replace (Z.to_nat (i - k m + 1) + Z.to_nat (2 * k m - 1) - Z.to_nat i)%nat
      with (Z.to_nat (k m)) by lia.
    subst P S. rewrite !substring_substring by lia.
    repeat f_equal; lia.
  - rewrite length_append, HP, HS. lia.
Qed.

(** The characters of the deleted span do not reach the junction string: two
    sequences of one length that agree before position [i] and from position
    [i + d] on have the same junction string at [i]. *)
Theorem junction_ignores_deleted_span m seq seq' i :
  kmer_size_ok m -> is_uint (delsize m) ->
  strlen seq <= string_max_size -> in_window m seq i ->
  String.length seq' = String.length seq ->
  (forall p : nat,
     Z.of_nat p < i \/ i + delsize m <= Z.of_nat p -> get p seq = get p seq') ->
  delseq_at m seq' i = delseq_at m seq i.
Proof.
  intros Hk Hd Hmax Hwin Hlen Hsame.
  assert (Hmax' : strlen seq' <= string_max_size)
    by (unfold strlen in *; now rewrite Hlen).
  assert (Hwin' : in_window m seq' i)
    by (unfold in_window, strlen in *; now rewrite Hlen).
  rewrite !delseq_at_explicit by assumption.
  unfold kmer_size_ok, is_uint, in_window in *.
  do 2 f_equal; apply substring_ext; intros p Hp; symmetry; apply Hsame; lia.
Qed.

(** The k-mers an event counts, in terms of the input sequence: with a table
    of the mutator's k-mer size, the j-th k-mer of the junction string at
    [i] (j from 0) is the [k - 1 - j] characters that end just before
    position [i] followed by the [j + 1] characters from position [i + d]
    on. The last one, j = k - 1, is the right flank alone. *)
Theorem junction_kmers m seq ct i :
  config_ok m ct -> strlen seq <= string_max_size -> in_window m seq i ->
  exists delseq,
    delseq_at m seq i = Ok delseq /\
    Z.of_nat (length (get_kmers ct delseq)) = k m /\
    (forall j : nat, Z.of_nat j < k m ->
       nth j (get_kmers ct delseq) EmptyString =
         (substring (Z.to_nat (i - k m + 1) + j) (Z.to_nat (k m) - 1 - j) seq
          ++ substring (Z.to_nat (i + delsize m)) (S j) seq)%string) /\
    nth (Z.to_nat (k m) - 1) (get_kmers ct delseq) EmptyString =
      substring (Z.to_nat (i + delsize m)) (Z.to_nat (k m)) seq.
Proof.
  intros (Hk & Hd & Hks) Hmax Hwin.
  eexists. split; [apply delseq_at_explicit; assumption|].
  unfold kmer_size_ok, is_uint, string_max_size, in_window in *.
  set (l := substring (Z.to_nat (i - k m + 1)) (Z.to_nat (k m - 1)) seq).
  set (r := substring (Z.to_nat (i + delsize m)) (Z.to_nat (k m)) seq).
  assert (Hl : String.length l = Z.to_nat (k m - 1))
    by (subst l; apply length_substring; unfold strlen in *; lia).
  assert (Hr : String.length r = Z.to_nat (k m))
    by (subst r; apply length_substring; unfold strlen in *; lia).
  assert (Hlen : strlen (l ++ r) = 2 * k m - 1)
    by (unfold strlen; rewrite length_append, Hl, Hr; lia).
  assert (Hnth : forall j : nat, Z.of_nat j < k m ->
            nth j (get_kmers ct (l ++ r)) EmptyString =
              (substring (Z.to_nat (i - k m + 1) + j) (Z.to_nat (k m) - 1 - j) seq
               ++ substring (Z.to_nat (i + delsize m)) (S j) seq)%string).
  { intros j Hj. rewrite get_kmers_nth by lia. rewrite Hks.
    rewrite substring_append_span by lia. rewrite Hl.
    replace (Z.to_nat (k m - 1) - j)%nat with (Z.to_nat (k m) - 1 - j)%nat by lia.
    replace (j + Z.to_nat (k m) - Z.to_nat (k m - 1))%nat with (S j) by lia.
    subst l r. rewrite !substring_substring by lia.
    repeat f_equal; lia. }
  split; [rewrite get_kmers_length; lia|]. split; [exact Hnth|].
  rewrite Hnth by lia.
  replace (Z.to_nat (k m) - 1 - (Z.to_nat (k m) - 1))%nat with 0%nat by lia.
  replace (S (Z.to_nat (k m) - 1)) with (Z.to_nat (k m)) by lia.
  rewrite substring_no_chars. reflexivity.
Qed.

End JunctionContent.

(** ** What a run does to the mutator *)

Section Accounting.

Context {Sampler Logger : Type}.
Context {policy : SkipPolicy Sampler} {reporter : Reporter Logger}.
Implicit Types m ma : MutatorDel Sampler Logger.

Lemma record_all_size (values : list Z) : forall h : Histogram,
  size (record_all values h) = (size h + length values)%nat.
Proof.
  unfold record_all.
  induction values as [|v values IH]; intros h; simpl; [lia|].
  rewrite IH. unfold hist_increment.
  rewrite gmultiset_size_disj_union, gmultiset_size_singleton. lia.
Qed.

Lemma record_all_grows (values : list Z) : forall h : Histogram,
  h ⊆ record_all values h.
Proof.
  unfold record_all.
  induction values as [|v values IH]; intros h; simpl; [reflexivity|].
  etransitivity; [|apply IH]. unfold hist_increment. multiset_solver.
Qed.

(** A turn of the loop that goes on either skipped, or built one event: the
    table gave k k-mers, and the logger was advanced once. *)
Lemma process_body_event seq ct i kc m kc' m' :
  process_body seq ct i kc m = Next kc' m' ->
  (kc' = kc /\ m' = with_sampler m (snd (skip_draw (sampler m)))) \/
  (kc' = ulong (kc + k m) /\
   exists delseq lg,
     Z.of_nat (length (get_kmers ct delseq)) = k m /\
     (fst (logger_increment (logger m)) = false -> lg = advance (logger m)) /\
     m' = with_logger
            (after_event ct delseq
               (with_delcount (with_sampler m (snd (skip_draw (sampler m))))
                              (ulong (delcount m + 1)))) lg).
Proof.
  unfold process_body, skip_nucl.
  destruct ((0 <? limit m) && (limit m <? delcount m)); [discriminate|].
  destruct (skip_draw (sampler m)) as [skip s]; cbn [fst snd].
  destruct skip; [intros [= <- <-]; auto|].
  destruct (delseq_at _ seq i) as [delseq|e]; [|discriminate].
  match goal with |- context [new_Deletion delseq ?m1 ct] =>
    destruct (new_Deletion delseq m1 ct) as [[del m2]|e] eqn:Hdel; [|discriminate]
  end.
  apply new_Deletion_inv in Hdel as (Hn & -> & ->).
  cbn [logger after_event with_unique_hist with_abund_hist with_delcount
       with_sampler k] in *.
  unfold advance.
  destruct (logger_increment (logger m)) as [doprint lg]. cbn [fst snd].
  intros [= <- <-]. right. split; [reflexivity|].
  exists delseq, (if doprint
                  then report (mkDeletion delseq (kmer_freqs ct (get_kmers ct delseq)))
                         (after_event ct delseq
                            (with_delcount (with_sampler m s) (ulong (delcount m + 1))))
                         lg
                  else lg).
  split; [exact Hn|]. split; [intros ->; reflexivity | reflexivity].
Qed.

(** Along a run the parameters stay, the histograms only gain entries, the
    abundance histogram gains k entries for each entry the unique-count
    histogram gains, and the running total follows the abundance
    histogram. *)
Lemma visits_accounting seq ct i kc m i' kc' m' :
  visits seq ct i kc m i' kc' m' ->
  same_config m m' /\
  abund_hist m ⊆ abund_hist m' /\ unique_hist m ⊆ unique_hist m' /\
  Z.of_nat (size (abund_hist m')) - Z.of_nat (size (abund_hist m)) =
    k m * (Z.of_nat (size (unique_hist m')) - Z.of_nat (size (unique_hist m))) /\
  (0 <= kc < 2 ^ 64 ->
   kc' = ulong (kc + (Z.of_nat (size (abund_hist m'))
                      - Z.of_nat (size (abund_hist m))))).
Proof.
  induction 1 as [i kc m | i kc m kc1 m1 i' kc' m' _ Hbody _ IH].
  - split; [apply same_config_refl|]. split; [reflexivity|]. split; [reflexivity|].
    split; [lia|]. intros Hkc. rewrite Z.sub_diag, Z.add_0_r.
    symmetry. now apply ulong_small.
  - destruct IH as (Hsame' & HA' & HU' & Hsize' & Hkc').
    pose proof (process_body_frame _ _ _ _ _ _ _ Hbody) as [Hsame _].
    pose proof Hsame as (Hk1 & _ & _).
    split; [eapply same_config_trans; eassumption|].
    apply process_body_event in Hbody
      as [(-> & ->)|(-> & delseq & lg & Hn & _ & ->)].
    + cbn [abund_hist unique_hist with_sampler k] in *. auto.
    + cbn [abund_hist unique_hist with_logger after_event with_unique_hist
           with_abund_hist with_delcount with_sampler k] in *.
      set (freqs := kmer_freqs ct (get_kmers ct delseq)) in *.
      assert (Hlen : Z.of_nat (length freqs) = k m)
        by (subst freqs; unfold kmer_freqs; now rewrite length_map).
      pose proof (record_all_size freqs (abund_hist m)) as HsA.
      pose proof (record_all_grows freqs (abund_hist m)) as HgA.
      assert (HsU : size (hist_increment (zero_count freqs) (unique_hist m))
                    = S (size (unique_hist m))).
      { unfold hist_increment.
        rewrite gmultiset_size_disj_union, gmultiset_size_singleton. lia. }
      assert (HgU : unique_hist m ⊆ hist_increment (zero_count freqs) (unique_hist m))
        by (unfold hist_increment; multiset_solver).
      split; [etransitivity; eassumption|].
      split; [etransitivity; eassumption|].
      split; [nia|].
      intros Hkc. rewrite Hkc' by apply ulong_range.
      rewrite ulong_add_idemp_l. f_equal. lia.
Qed.

(** Along a run whose counter cannot wrap, the counter moves with the
    unique-count histogram, by at most one per position, and the position
    does not pass the last deletion point by more than one. *)
Lemma visits_counter seq ct i kc m i' kc' m' :
  visits seq ct i kc m i' kc' m' ->
  1 <= k m -> 0 <= delsize m -> strlen seq <= string_max_size ->
  0 <= i -> i + k m + delsize m < 2 ^ 64 ->
  0 <= delcount m -> delcount m + Z.max 0 (strlen seq - i) < 2 ^ 64 ->
  Z.of_nat (size (unique_hist m')) - Z.of_nat (size (unique_hist m))
    = delcount m' - delcount m /\
  0 <= delcount m' - delcount m <= i' - i /\
  i' <= Z.max i (strlen seq - k m - delsize m + 1).
Proof.
  unfold string_max_size.
  induction 1 as [i kc m | i kc m kc1 m1 i' kc' m' Htest Hbody _ IH];
    intros Hk Hd Hmax Hi Hlt Hc Hcw; [lia|].
  rewrite loop_test_true in Htest by lia. apply Z.leb_le in Htest.
  pose proof (process_body_frame _ _ _ _ _ _ _ Hbody) as [(Hk1 & _ & Hd1) _].
  rewrite ulong_small in IH by lia. rewrite Hk1, Hd1 in IH.
  apply process_body_event in Hbody
    as [(-> & ->)|(-> & delseq & lg & _ & _ & ->)].
  - cbn [unique_hist delcount with_sampler] in IH.
    destruct IH as (H1 & H2 & H3); lia.
  - cbn [unique_hist delcount with_logger after_event with_unique_hist
         with_abund_hist with_delcount with_sampler] in IH.
    rewrite ulong_small in IH by lia.
    unfold hist_increment in IH.
    rewrite gmultiset_size_disj_union, gmultiset_size_singleton in IH.
    destruct IH as (H1 & H2 & H3); lia.
Qed.

(** With a logger that never reports, a run only advances it. *)
Lemma visits_logger seq ct i kc m i' kc' m' :
  visits seq ct i kc m i' kc' m' ->
  (forall l : Logger, fst (logger_increment l) = false) ->
  logger m' =
    Nat.iter (size (unique_hist m') - size (unique_hist m)) advance (logger m) /\
  (size (unique_hist m) <= size (unique_hist m'))%nat.
Proof.
  induction 1 as [i kc m | i kc m kc1 m1 i' kc' m' _ Hbody _ IH]; intros Hquiet.
  - rewrite Nat.sub_diag. auto.
  - destruct (IH Hquiet) as [IHl IHs].
    apply process_body_event in Hbody
      as [(-> & ->)|(-> & delseq & lg & _ & Hlg & ->)].
    + cbn [unique_hist logger with_sampler] in *. auto.
    + cbn [unique_hist logger with_logger after_event with_unique_hist
           with_abund_hist with_delcount with_sampler] in *.
      rewrite (Hlg (Hquiet _)) in IHl.
      unfold hist_increment in *.
      rewrite gmultiset_size_disj_union, gmultiset_size_singleton in *.
      split; [|lia]. rewrite IHl, <- Nat.iter_succ_r. f_equal. lia.
Qed.

End Accounting.

(** ** Runs that do nothing, and runs that fail *)

Section Edges.

Context {Sampler Logger : Type}.
Context {policy : SkipPolicy Sampler} {reporter : Reporter Logger}.
Implicit Types m ma : MutatorDel Sampler Logger.

(** Once the counter is above a positive limit, [process] on any sequence
    and table returns 0 and leaves the mutator as it is: the policy is not
    consulted, no event is built and the logger is not advanced. *)
Theorem process_over_limit_is_noop seq ct m :
  0 < limit m < delcount m -> process seq ct m = Some (Ok (0, m)).
Proof.
  intros Hover. unfold process. cbn [process_loop].
  rewrite process_body_Break by assumption.
  destruct (loop_test m seq _); reflexivity.
Qed.

(** A run that the limit has stopped closes the mutator for good: after a
    call that reached [L + 1] events under a policy that never skips, a
    second call, on any sequence, returns 0 and changes nothing. *)
Theorem process_after_limit_reached seq seq' ct m :
  config_ok m ct -> strlen seq <= string_max_size ->
  (forall s : Sampler, fst (skip_draw s) = false) ->
  0 < limit m -> delcount m = 0 ->
  limit m + 2 <= Z.of_nat (windows m seq) ->
  exists total m',
    process seq ct m = Some (Ok (total, m')) /\
    process seq' ct m' = Some (Ok (0, m')).
Proof.
  intros Hcfg Hmax Hns HL Hc Hwin.
  pose proof Hcfg as (Hk & [Hd Hd'] & _); unfold kmer_size_ok in Hk.
  unfold string_max_size in Hmax.
  destruct (process_loop_limited seq ct (windows m seq)
              (S (String.length seq)) (k m - 1) 0 m)
    as (m' & Hrun & (_ & HL' & _) & Hc');
    try assumption; try (unfold windows, strlen in *; lia).
  eexists _, m'. unfold process at 1. rewrite uint_small by lia.
  split; [exact Hrun|]. unfold process. cbn [process_loop].
  rewrite process_body_Break by lia.
  destruct (loop_test m' seq' _); reflexivity.
Qed.

Lemma process_loop_all_skipped seq ct (n : nat) : forall (fuel : nat) i kc m,
  (forall s : Sampler, fst (skip_draw s) = true) ->
  0 <= k m -> 0 <= delsize m -> strlen seq <= string_max_size ->
  0 <= i -> i + k m + delsize m < 2 ^ 64 ->
  Z.of_nat n = Z.max 0 (strlen seq + 1 - (i + k m + delsize m)) ->
  (n < fuel)%nat ->
  limit m <= 0 \/ delcount m <= limit m ->
  process_loop fuel seq ct i kc m =
    Some (Ok (kc, with_sampler m (draws n (sampler m)))).
Proof.
  unfold string_max_size.
  induction n as [|n IH]; intros fuel i kc m Hskip Hk Hd Hmax Hi Hlt Hn Hfuel Hlim;
    (destruct fuel as [|fuel]; [lia|]); cbn [process_loop draws];
    rewrite loop_test_true by lia;
    destruct (Z.leb_spec (i + k m + delsize m) (strlen seq)) as [Hle|Hgt];
    try lia.
  - now destruct m.
  - assert (Hbody : process_body seq ct i kc m
                    = Next kc (with_sampler m (snd (skip_draw (sampler m))))).
    { unfold process_body, skip_nucl.
      apply limit_check_false in Hlim. rewrite Hlim.
      specialize (Hskip (sampler m)).
      destruct (skip_draw (sampler m)) as [skip s]. cbn [fst snd] in *.
      now rewrite Hskip. }
    rewrite Hbody, ulong_small by lia.
    rewrite IH; try assumption; cbn [k delsize limit delcount with_sampler];
      try lia.
    reflexivity.
Qed.

(** Under a policy that skips every deletion point, [process] returns 0 and
    changes nothing but the state of the policy, which it has consulted
    once for each deletion point: the counter, both histograms and the
    logger are as before. *)
Theorem process_all_skipped seq ct m :
  (forall s : Sampler, fst (skip_draw s) = true) ->
  1 <= k m < 2 ^ 32 -> is_uint (delsize m) -> strlen seq <= string_max_size ->
  limit m <= 0 \/ delcount m <= limit m ->
  process seq ct m =
    Some (Ok (0, with_sampler m (draws (windows m seq) (sampler m)))).
Proof.
  intros Hskip Hk [Hd Hd'] Hmax Hlim. unfold process.
  rewrite uint_small by lia. unfold string_max_size in Hmax.
  apply process_loop_all_skipped; try assumption;
    unfold windows, strlen, string_max_size in *; lia.
Qed.

Lemma kmer_count_mismatch ct seq (kk : Z) :
  1 <= kk -> strlen seq = 2 * kk - 1 -> ksize ct <> kk ->
  Z.of_nat (length (get_kmers ct seq)) <> kk.
Proof.
  intros Hk Hlen Hne. unfold get_kmers.
  destruct (Z.ltb_spec (strlen seq) (ksize ct)) as [Hlt|Hge]; cbn [length]; [lia|].
  rewrite length_map, length_seq. lia.
Qed.

Lemma new_Deletion_mismatch seq m ct :
  1 <= k m -> strlen seq = 2 * k m - 1 -> ksize ct <> k m ->
  new_Deletion seq m ct = Err KmerCountAssertion.
Proof.
  intros Hk Hlen Hne. unfold new_Deletion. cbv zeta.
  destruct (Z.eqb_spec (Z.of_nat (length (get_kmers ct seq))) (k m)) as [Heq|];
    [|reflexivity].
  exfalso. eapply kmer_count_mismatch; eassumption.
Qed.

(** The constructor of an event checks the table against the mutator: on a
    junction string of [2k - 1] characters it fails its assertion on the
    number of k-mers exactly when the table's k-mer size is not k, and
    otherwise returns. *)
Theorem new_Deletion_fails_iff_ksize_differs seq m ct :
  1 <= k m -> strlen seq = 2 * k m - 1 ->
  (new_Deletion seq m ct = Err KmerCountAssertion <-> ksize ct <> k m) /\
  (ksize ct = k m <-> exists del m', new_Deletion seq m ct = Ok (del, m')).
Proof.
  intros Hk Hlen.
  assert (Hbad : ksize ct <> k m -> new_Deletion seq m ct = Err KmerCountAssertion)
    by (intros Hne; now apply new_Deletion_mismatch).
  assert (Hgood : ksize ct = k m -> exists del m', new_Deletion seq m ct = Ok (del, m')).
  { intros Heq. destruct (new_Deletion_ok seq m ct Hk Heq Hlen) as [_ ->]. eauto. }
  split; split.
  - intros Herr Heq. destruct (Hgood Heq) as (del & m' & Hok). congruence.
  - exact Hbad.
  - exact Hgood.
  - intros (del & m' & Hok). destruct (Z.eq_dec (ksize ct) (k m)) as [|Hne];
      [assumption|]. apply Hbad in Hne. congruence.
Qed.

(** With a table of another k-mer size, a run fails at its first event: when
    the sequence has a deletion point, the limit does not stop the run and
    the policy keeps the first position, [process] ends in the assertion on
    the number of k-mers. *)
Theorem process_fails_on_other_ksize seq ct m :
  kmer_size_ok m -> is_uint (delsize m) -> strlen seq <= string_max_size ->
  ksize ct <> k m ->
  2 * k m + delsize m - 1 <= strlen seq ->
  limit m <= 0 \/ delcount m <= limit m ->
  fst (skip_draw (sampler m)) = false ->
  process seq ct m = Some (Err KmerCountAssertion).
Proof.
  unfold kmer_size_ok, string_max_size.
  intros Hk [Hd Hd'] Hmax Hne Hlen Hlim Hkeep.
  unfold process. rewrite uint_small by lia. cbn [process_loop].
  rewrite loop_test_true by lia.
  destruct (Z.leb_spec (k m - 1 + k m + delsize m) (strlen seq)); [|lia].
  unfold process_body, skip_nucl.
  apply limit_check_false in Hlim. rewrite Hlim.
  destruct (skip_draw (sampler m)) as [skip s]. cbn [fst] in Hkeep. subst skip.
  rewrite (delseq_at_ext _ m) by reflexivity.
  destruct (flanks_in_window m seq (k m - 1))
    as (l & r & _ & _ & Hl & Hr & _ & _ & ->);
    try (unfold in_window, string_max_size); try lia.
  match goal with |- context [new_Deletion ?d ?m1 ct] =>
    rewrite (new_Deletion_mismatch d m1 ct)
  end; cbn [k with_delcount with_sampler]; try lia; try assumption.
  - reflexivity.
  - rewrite strlen_append. lia.
Qed.

End Edges.

(** ** The histograms, the counter and the total *)

Section Totals.

Context {Sampler Logger : Type}.
Context {policy : SkipPolicy Sampler} {reporter : Reporter Logger}.
Implicit Types m ma : MutatorDel Sampler Logger.

(** A call of [process] that returns has left the k-mer size, the limit and
    the deletion size as they were, and has removed nothing from the
    histograms: every value is recorded at least as often as before. *)
Theorem process_keeps_parameters_and_entries seq ct m total m' :
  process seq ct m = Some (Ok (total, m')) ->
  k m' = k m /\ limit m' = limit m /\ delsize m' = delsize m /\
  abund_hist m ⊆ abund_hist m' /\ unique_hist m ⊆ unique_hist m' /\
  (forall v, hist_count (abund_hist m) v <= hist_count (abund_hist m') v) /\
  (forall v, hist_count (unique_hist m) v <= hist_count (unique_hist m') v).
Proof.
  intros Hrun. unfold process in Hrun.
  apply process_loop_Ok in Hrun as [i' Hv].
  apply visits_accounting in Hv as ((Hk & HL & Hd) & HA & HU & _).
  split; [exact Hk|]. split; [exact HL|]. split; [exact Hd|].
  split; [exact HA|]. split; [exact HU|].
  split; intros v; unfold hist_count; apply inj_le;
    [apply (HA v) | apply (HU v)].
Qed.

(** The total that [process] returns counts what it added to the abundance
    histogram: it is the number of new entries (in [ulong] arithmetic), and
    that number is k times the number of new entries of the unique-count
    histogram, k abundances and one unique count for each event. *)
Theorem process_total_counts_histogram_entries seq ct m total m' :
  process seq ct m = Some (Ok (total, m')) ->
  total = ulong (Z.of_nat (size (abund_hist m'))
                 - Z.of_nat (size (abund_hist m))) /\
  Z.of_nat (size (abund_hist m')) - Z.of_nat (size (abund_hist m)) =
    k m * (Z.of_nat (size (unique_hist m'))
           - Z.of_nat (size (unique_hist m))).
Proof.
  intros Hrun. unfold process in Hrun.
  apply process_loop_Ok in Hrun as [i' Hv].
  apply visits_accounting in Hv as (_ & _ & _ & Hsize & Hkc).
  split; [|exact Hsize]. rewrite Hkc by lia. f_equal.
Qed.

(** On a freshly constructed mutator, with parameters in range and a table
    of the same k-mer size, [process] returns, and afterwards the event
    count that [get_mut_count] reads is at most the number of deletion
    points, the unique-count histogram holds that many entries and the
    abundance histogram k times as many, whatever the limit and the
    sampling policy. *)
Theorem fresh_mutator_histogram_sizes (ks d : Z) (l : Logger) (maxabund lim : Z)
    (s0 : Sampler) seq ct :
  1 <= ks < 2 ^ 31 -> is_uint d -> ksize ct = ks ->
  strlen seq <= string_max_size ->
  exists total m',
    process seq ct (new_MutatorDel ks d l maxabund lim s0) = Some (Ok (total, m')) /\
    0 <= fst (get_mut_count m')
      <= Z.of_nat (windows (new_MutatorDel ks d l maxabund lim s0) seq) /\
    Z.of_nat (size (unique_hist m')) = fst (get_mut_count m') /\
    Z.of_nat (size (abund_hist m')) = ks * fst (get_mut_count m').
Proof.
  intros Hk [Hd Hd'] Hks Hmax. set (m := new_MutatorDel ks d l maxabund lim s0).
  unfold string_max_size in Hmax.
  destruct (process_loop_returns seq ct (windows m seq)
              (S (String.length seq)) (k m - 1) 0 m) as (total & m' & Hrun & _);
    try (unfold config_ok, kmer_size_ok, is_uint, string_max_size; cbn; lia);
    try (unfold windows, strlen in *; cbn; lia).
  exists total, m'. unfold process. rewrite uint_small by (cbn; lia).
  split; [exact Hrun|].
  apply process_loop_Ok in Hrun as [i' Hv].
  pose proof (visits_accounting _ _ _ _ _ _ _ _ Hv) as (_ & _ & _ & Hsize & _).
  apply visits_counter in Hv as (Hu & Hc & Hi');
    try (unfold string_max_size; cbn; lia).
  cbn [get_mut_count fst]. cbn in Hsize, Hu, Hc, Hi'.
  rewrite gmultiset_size_empty in *.
  unfold windows. cbn [k delsize m new_MutatorDel].
  split; [lia|]. split; [lia|]. nia.
Qed.

(** With a logger that never reports, a call of [process] that returns has
    advanced the logger once for each event (each new entry of the
    unique-count histogram) and done nothing else to it. *)
Theorem process_advances_quiet_logger seq ct m total m' :
  (forall l : Logger, fst (logger_increment l) = false) ->
  process seq ct m = Some (Ok (total, m')) ->
  logger m' =
    Nat.iter (size (unique_hist m') - size (unique_hist m)) advance (logger m).
Proof.
  intros Hquiet Hrun. unfold process in Hrun.
  apply process_loop_Ok in Hrun as [i' Hv].
  now apply visits_logger in Hv as [Hl _].
Qed.

(** Whatever the limit and the policy, a call of [process] that returns has
    raised the event count by the number of events it built, which is at
    most the number of deletion points, and its total is k times that
    number (in [ulong] arithmetic), also when the limit stopped it early. *)
Theorem process_counter_and_total seq ct m total m' :
  1 <= k m < 2 ^ 32 -> is_uint (delsize m) -> strlen seq <= string_max_size ->
  0 <= delcount m -> delcount m + strlen seq < 2 ^ 64 ->
  process seq ct m = Some (Ok (total, m')) ->
  0 <= delcount m' - delcount m <= Z.of_nat (windows m seq) /\
  Z.of_nat (size (unique_hist m')) - Z.of_nat (size (unique_hist m))
    = delcount m' - delcount m /\
  total = ulong (k m * (delcount m' - delcount m)).
Proof.
  intros Hk [Hd Hd'] Hmax Hc Hcw Hrun. unfold process in Hrun.
  rewrite uint_small in Hrun by lia.
  apply process_loop_Ok in Hrun as [i' Hv].
  pose proof (visits_accounting _ _ _ _ _ _ _ _ Hv) as (_ & _ & _ & Hsize & Hkc).
  pose proof (strlen_nonneg seq).
  apply visits_counter in Hv as (Hu & Hdc & Hi'); try lia.
  unfold windows. split; [lia|]. split; [exact Hu|].
  rewrite Hkc by lia. f_equal. lia.
Qed.

End Totals.

(** ** The diagram of an event *)

Section DiagramOfEvent.

Context {Sampler Logger : Type}.
Implicit Types m : MutatorDel Sampler Logger.

Lemma fold_append_only {A : Type} (f : string -> A -> string) (g : A -> string) :
  (forall st x, f st x = (st ++ g x)%string) ->
  forall (l : list A) (st : string),
    fold_left f l st = (st ++ fold_left f l EmptyString)%string.
Proof.
  intros Hf. induction l as [|x l IH]; intros st; cbn [fold_left].
  - now rewrite append_empty_r.
  - rewrite (IH (f st x)), (IH (f EmptyString x)), !Hf, append_assoc.
    reflexivity.
Qed.

(** [print] only appends: what the stream held stays in front, and the text
    added does not depend on it, for every event and mutator. *)
Theorem print_appends del m stream :
  print del m stream = (stream ++ print del m EmptyString)%string.
Proof.
  unfold print.
  set (f1 := fun (st : string) (_ : nat) => (st ++ " ")%string).
  set (f2 := fun (st : string) (i : nat) =>
               let abund := nth i (abunds del) 0 in
               let st := if (0 <? i)%nat then (st ++ " ")%string else st in
               (st ++ show_uint abund)%string).
  assert (H1 : forall l st, fold_left f1 l st
                            = (st ++ fold_left f1 l EmptyString)%string)
    by (apply (fold_append_only f1 (fun _ => " "%string)); reflexivity).
  assert (H2 : forall l st, fold_left f2 l st
                            = (st ++ fold_left f2 l EmptyString)%string).
  { apply (fold_append_only f2
             (fun i => ((if (0 <? i)%nat then " " else EmptyString)
                        ++ show_uint (nth i (abunds del) 0))%string)).
    intros st i. subst f2. cbv beta zeta.
    destruct (0 <? i)%nat; [now rewrite append_assoc | reflexivity]. }
  rewrite (H2 _ (_ ++ _)%string), (H1 _ (_ ++ _)%string).
  rewrite (H2 _ (fold_left f1 _ _ ++ _)%string), (H1 _ (EmptyString ++ _)%string).
  rewrite !append_assoc. reflexivity.
Qed.

(** The diagram of an event that the constructor has built: whenever the
    constructor returns, [print] on its event and mutator appends ">" and
    the junction string, k spaces and "|", and the abundances that the
    table gives for the k-mers of the junction string, in order and
    separated by single spaces. *)
Theorem print_of_new_Deletion seq m ct del m' stream :
  new_Deletion seq m ct = Ok (del, m') ->
  print del m' stream =
    (stream ++ (">" ++ seq) ++ nl
            ++ (spaces (Z.to_nat (k m)) ++ "|") ++ nl
            ++ String.concat " "
                 (map (fun kmer => show_uint (uint (get_count ct kmer)))
                      (get_kmers ct seq))
            ++ nl)%string.
Proof.
  intros Hnew. apply new_Deletion_inv in Hnew as (Hn & -> & ->).
  unfold print.
  cbn [sequence abunds k after_event with_unique_hist with_abund_hist].
  assert (Hlen : Z.to_nat (k m) = length (kmer_freqs ct (get_kmers ct seq)))
    by (unfold kmer_freqs; rewrite length_map; lia).
  rewrite fold_spaces, Hlen, fold_abunds, <- Hlen.
  unfold kmer_freqs. rewrite map_map, !append_assoc. reflexivity.
Qed.

End DiagramOfEvent.

(** ** The further properties on concrete runs *)

(** Deletion point 3 of the example: the window of 5 characters from
    position 1 of "AAAGGGTTT..." with "CC" removed. *)
Lemma junction_is_window_of_deleted_sequence_witness :
  (kmer_size_ok example_mutator /\ is_uint (delsize example_mutator) /\
   strlen example_sequence <= string_max_size /\
   in_window example_mutator example_sequence 3) /\
  delete_span example_sequence 3 2 = "AAACGGGTTT"%string /\
  delseq_at example_mutator example_sequence 3
    = Ok (substring 1 5 "AAACGGGTTT").
Proof.
  assert (H1 : kmer_size_ok example_mutator) by in_range.
  assert (H2 : is_uint (delsize example_mutator)) by in_range.
  assert (H3 : strlen example_sequence <= string_max_size) by in_range.
  assert (H4 : in_window example_mutator example_sequence 3) by in_range.
  split; [auto|]. split; [reflexivity|].
  exact (proj1 (junction_is_window_of_deleted_sequence
                  example_mutator example_sequence 3 H1 H2 H3 H4)).
Defined.

(** Other characters at the deleted positions 3 and 4 give the same
    junction string. *)
Lemma junction_ignores_deleted_span_witness :
  (kmer_size_ok example_mutator /\ is_uint (delsize example_mutator) /\
   strlen example_sequence <= string_max_size /\
   in_window example_mutator example_sequence 3 /\
   String.length altered_sequence = String.length example_sequence) /\
  delseq_at example_mutator altered_sequence 3
    = delseq_at example_mutator example_sequence 3.
Proof.
  assert (H1 : kmer_size_ok example_mutator) by in_range.
  assert (H2 : is_uint (delsize example_mutator)) by in_range.
  assert (H3 : strlen example_sequence <= string_max_size) by in_range.
  assert (H4 : in_window example_mutator example_sequence 3) by in_range.
  assert (H5 : forall p : nat,
            Z.of_nat p < 3 \/ 3 + delsize example_mutator <= Z.of_nat p ->
            get p example_sequence = get p altered_sequence).
  { intros p Hp. cbn [delsize example_mutator new_MutatorDel] in Hp.
    destruct p as [|[|[|[|[|p]]]]]; try reflexivity; lia. }
  split; [auto 6|].
  exact (junction_ignores_deleted_span example_mutator example_sequence
           altered_sequence 3 H1 H2 H3 H4 eq_refl H5).
Defined.

(** The three 3-mers of the event at deletion point 3 of the example. *)
Lemma junction_kmers_witness :
  (config_ok example_mutator sample_table /\
   strlen example_sequence <= string_max_size /\
   in_window example_mutator example_sequence 3) /\
  exists delseq,
    delseq_at example_mutator example_sequence 3 = Ok delseq /\
    nth 0 (get_kmers sample_table delseq) EmptyString = ("AA" ++ "C")%string /\
    nth 2 (get_kmers sample_table delseq) EmptyString = "CGG"%string.
Proof.
  assert (H1 : config_ok example_mutator sample_table) by in_range.
  assert (H2 : strlen example_sequence <= string_max_size) by in_range.
  assert (H3 : in_window example_mutator example_sequence 3) by in_range.
  destruct (junction_kmers example_mutator example_sequence sample_table 3 H1 H2 H3)
    as (delseq & Hd & _ & Hj & Hlast).
  split; [auto|]. exists delseq. split; [exact Hd|].
  split; [exact (Hj 0%nat eq_refl) | exact Hlast].
Defined.

(** A counter of 5 over a limit of 2. *)
Lemma process_over_limit_is_noop_witness :
  let m := mkMutatorDel 3 2 ∅ ∅ tt quiet_logger 5 2 in
  0 < limit m < delcount m /\
  process example_sequence sample_table m = Some (Ok (0, m)).
Proof.
  intros m. assert (H : 0 < limit m < delcount m) by (cbn; lia).
  split; [exact H|]. exact (process_over_limit_is_noop example_sequence sample_table m H).
Defined.

(** The example under a limit of 2, then a second sequence. *)
Lemma process_after_limit_reached_witness :
  (config_ok (limited_mutator 2) sample_table /\
   0 < limit (limited_mutator 2) /\ delcount (limited_mutator 2) = 0) /\
  exists total m',
    process example_sequence sample_table (limited_mutator 2) = Some (Ok (total, m')) /\
    process "AACAACCGG" sample_table m' = Some (Ok (0, m')).
Proof.
  assert (H1 : config_ok (limited_mutator 2) sample_table) by in_range.
  assert (H2 : strlen example_sequence <= string_max_size) by in_range.
  assert (H3 : forall s : unit, fst (skip_draw s) = false) by (intros []; reflexivity).
  assert (H4 : 0 < limit (limited_mutator 2)) by reflexivity.
  assert (H5 : limit (limited_mutator 2) + 2
               <= Z.of_nat (windows (limited_mutator 2) example_sequence))
    by (vm_compute; intro; discriminate).
  split; [auto|].
  exact (process_after_limit_reached example_sequence "AACAACCGG" sample_table
           (limited_mutator 2) H1 H2 H3 H4 eq_refl H5).
Defined.

(** The example under the policy that skips everything. *)
Lemma process_all_skipped_witness :
  (1 <= k example_mutator < 2 ^ 32 /\ is_uint (delsize example_mutator) /\
   strlen example_sequence <= string_max_size /\ limit example_mutator <= 0) /\
  process (policy := always_skip) example_sequence sample_table example_mutator
    = Some (Ok (0, example_mutator)).
Proof.
  assert (H0 : forall s : unit, fst (always_skip s) = true) by (intros []; reflexivity).
  assert (H1 : 1 <= k example_mutator < 2 ^ 32) by in_range.
  assert (H2 : is_uint (delsize example_mutator)) by in_range.
  assert (H3 : strlen example_sequence <= string_max_size) by in_range.
  assert (H4 : limit example_mutator <= 0) by in_range.
  split; [auto|].
  exact (process_all_skipped (policy := always_skip) example_sequence sample_table
           example_mutator H0 H1 H2 H3 (or_introl H4)).
Defined.

(** The junction string "AACCG" with a table of 4-mers, and with one of
    3-mers. *)
Lemma new_Deletion_fails_iff_ksize_differs_witness :
  (1 <= k example_mutator /\ strlen "AACCG" = 2 * k example_mutator - 1 /\
   ksize other_table <> k example_mutator) /\
  new_Deletion "AACCG" example_mutator other_table = Err KmerCountAssertion /\
  exists del m', new_Deletion "AACCG" example_mutator sample_table = Ok (del, m').
Proof.
  assert (H1 : 1 <= k example_mutator) by in_range.
  assert (H2 : ksize other_table <> k example_mutator) by (intro H; discriminate H).
  split; [auto|]. split.
  - exact (proj2 (proj1 (new_Deletion_fails_iff_ksize_differs "AACCG" example_mutator
                           other_table H1 eq_refl)) H2).
  - exact (proj1 (proj2 (new_Deletion_fails_iff_ksize_differs "AACCG" example_mutator
                           sample_table H1 eq_refl)) eq_refl).
Defined.

(** The example with a table of 4-mers. *)
Lemma process_fails_on_other_ksize_witness :
  (kmer_size_ok example_mutator /\ is_uint (delsize example_mutator) /\
   strlen example_sequence <= string_max_size /\
   ksize other_table <> k example_mutator /\
   2 * k example_mutator + delsize example_mutator - 1 <= strlen example_sequence /\
   limit example_mutator <= 0) /\
  process example_sequence other_table example_mutator
    = Some (Err KmerCountAssertion).
Proof.
  assert (H1 : kmer_size_ok example_mutator) by in_range.
  assert (H2 : is_uint (delsize example_mutator)) by in_range.
  assert (H3 : strlen example_sequence <= string_max_size) by in_range.
  assert (H4 : ksize other_table <> k example_mutator) by (intro H; discriminate H).
  assert (H5 : 2 * k example_mutator + delsize example_mutator - 1
               <= strlen example_sequence) by in_range.
  assert (H6 : limit example_mutator <= 0) by in_range.
  split; [auto 7|].
  exact (process_fails_on_other_ksize example_sequence other_table example_mutator
           H1 H2 H3 H4 H5 (or_introl H6) eq_refl).
Defined.

(** A run of the example on a mutator whose histograms were not empty. *)
Lemma process_keeps_parameters_and_entries_witness :
  exists total m',
    process example_sequence sample_table used_mutator = Some (Ok (total, m')) /\
    k m' = 3 /\ {[+ 7 +]} ⊆ abund_hist m' /\ {[+ 1 +]} ⊆ unique_hist m'.
Proof.
  eexists _, _.
  assert (Hrun : process example_sequence sample_table used_mutator
                 = Some (Ok (_, _))) by (vm_compute; reflexivity).
  split; [exact Hrun|].
  destruct (process_keeps_parameters_and_entries _ _ _ _ _ Hrun)
    as (Hk & _ & _ & HA & HU & _).
  split; [exact Hk|]. split; [exact HA | exact HU].
Defined.

(** The same run: 18 k-mers, 18 new abundances, 6 new unique counts. *)
Lemma process_total_counts_histogram_entries_witness :
  exists m',
    process example_sequence sample_table used_mutator = Some (Ok (18, m')) /\
    18 = ulong (Z.of_nat (size (abund_hist m')) - 1) /\
    Z.of_nat (size (abund_hist m')) - 1 = 3 * (Z.of_nat (size (unique_hist m')) - 1).
Proof.
  eexists.
  assert (Hrun : process example_sequence sample_table used_mutator
                 = Some (Ok (18, _))) by (vm_compute; reflexivity).
  split; [exact Hrun|].
  exact (process_total_counts_histogram_entries _ _ _ _ _ Hrun).
Defined.

(** The example on a fresh mutator under a limit of 2. *)
Lemma fresh_mutator_histogram_sizes_witness :
  (1 <= 3 < 2 ^ 31 /\ is_uint 2 /\ ksize sample_table = 3 /\
   strlen example_sequence <= string_max_size) /\
  exists total m',
    process example_sequence sample_table (new_MutatorDel 3 2 quiet_logger 16 2 tt)
      = Some (Ok (total, m')) /\
    Z.of_nat (size (unique_hist m')) = fst (get_mut_count m') /\
    Z.of_nat (size (abund_hist m')) = 3 * fst (get_mut_count m').
Proof.
  assert (H1 : 1 <= 3 < 2 ^ 31) by lia.
  assert (H2 : is_uint 2) by in_range.
  assert (H3 : strlen example_sequence <= string_max_size) by in_range.
  destruct (fresh_mutator_histogram_sizes 3 2 quiet_logger 16 2 tt
              example_sequence sample_table H1 H2 eq_refl H3)
    as (total & m' & Hrun & _ & HU & HA).
  split; [auto|]. exists total, m'. auto.
Defined.

(** The example with the logger that never reports: six events, the logger
    advanced six times. *)
Lemma process_advances_quiet_logger_witness :
  (forall l : Z, fst (logger_increment l) = false) /\
  exists total m',
    process example_sequence sample_table quiet_mutator = Some (Ok (total, m')) /\
    logger m' = Nat.iter 6 advance (logger quiet_mutator).
Proof.
  assert (H0 : forall l : Z, fst (logger_increment l) = false)
    by (intros l; reflexivity).
  split; [exact H0|]. eexists _, _.
  assert (Hrun : process example_sequence sample_table quiet_mutator
                 = Some (Ok (_, _))) by (vm_compute; reflexivity).
  split; [exact Hrun|].
  exact (process_advances_quiet_logger _ _ _ _ _ H0 Hrun).
Defined.

(** The event of "AACCG" and its diagram. *)
Lemma print_of_new_Deletion_witness :
  exists del m',
    new_Deletion "AACCG" example_mutator sample_table = Ok (del, m') /\
    print del m' EmptyString
      = (">AACCG" ++ nl ++ "   |" ++ nl ++ "5 0 2" ++ nl)%string.
Proof.
  eexists _, _.
  assert (Hnew : new_Deletion "AACCG" example_mutator sample_table = Ok (_, _))
    by (vm_compute; reflexivity).
  split; [exact Hnew|].
  exact (print_of_new_Deletion _ _ _ _ _ EmptyString Hnew).
Defined.

(** The example under a limit of 2, on a mutator that had counted 4 events. *)
Lemma process_counter_and_total_witness :
  let m := mkMutatorDel 3 6 ∅ ∅ tt quiet_logger 4 2 in
  (1 <= k m < 2 ^ 32 /\ is_uint (delsize m) /\
   strlen example_sequence <= string_max_size /\
   0 <= delcount m /\ delcount m + strlen example_sequence < 2 ^ 64) /\
  exists m',
    process example_sequence sample_table m = Some (Ok (9, m')) /\
    delcount m' - 4 = 3 /\ 9 = ulong (3 * (delcount m' - 4)).
Proof.
  intros m.
  assert (H1 : 1 <= k m < 2 ^ 32) by in_range.
  assert (H2 : is_uint (delsize m)) by in_range.
  assert (H3 : strlen example_sequence <= string_max_size) by in_range.
  assert (H4 : 0 <= delcount m) by in_range.
  assert (H5 : delcount m + strlen example_sequence < 2 ^ 64) by in_range.
  split; [auto 6|]. eexists.
  assert (Hrun : process example_sequence sample_table m = Some (Ok (9, _)))
    by (vm_compute; reflexivity).
  split; [exact Hrun|].
  destruct (process_counter_and_total _ _ _ _ _ H1 H2 H3 H4 H5 Hrun) as (_ & _ & Ht).
  split; [reflexivity | exact Ht].
Defined.

(** ** The size assertion above k = 2^31 *)

Section LargeK.

Context {Sampler Logger : Type}.
Context {policy : SkipPolicy Sampler} {reporter : Reporter Logger}.
Implicit Types m : MutatorDel Sampler Logger.

(** Above 2^31 the [uint] product [2 * k] wraps, and the right-hand side of
    the assertion is [2k - 1 - 2^32]. *)
Lemma assert_size_rhs_wraps m :
  2 ^ 31 < k m < 2 ^ 32 ->
  uint (uint (2 * k m) - 1) = 2 * k m - 1 - 2 ^ 32.
Proof.
  intros Hk. unfold uint. rewrite Zminus_mod_idemp_l.
  replace (2 * k m - 1) with (2 * k m - 1 - 2 ^ 32 + 1 * 2 ^ 32) at 1 by lia.
  rewrite Z_mod_plus_full. apply Z.mod_small. lia.
Qed.

(** At a deletion point the two flanks are there and together have [2k - 1]
    characters, and the assertion on that size fails. *)
Lemma delseq_at_large_k m seq i :
  2 ^ 31 < k m < 2 ^ 32 -> is_uint (delsize m) ->
  strlen seq <= string_max_size -> in_window m seq i ->
  (exists l r,
     left_flank m seq i = Some l /\ right_flank m seq i = Some r /\
     strlen (l ++ r) = 2 * k m - 1) /\
  delseq_at m seq i = Err DelseqSizeAssertion.
Proof.
  unfold is_uint, string_max_size, in_window.
  intros Hk Hd Hmax Hwin.
  assert (Hmin1 : ulong (ulong (i - k m) + 1) = i - k m + 1).
  { rewrite ulong_add_idemp_l. apply ulong_small. lia. }
  unfold delseq_at, left_flank, right_flank, substr.
  rewrite Hmin1, (uint_small (k m - 1)), (ulong_small (i + delsize m)) by lia.
  destruct (Z.ltb_spec (strlen seq) (i - k m + 1)); [lia|].
  destruct (Z.ltb_spec (strlen seq) (i + delsize m)); [lia|].
  cbv zeta. rewrite assert_size_rhs_wraps, strlen_append by lia.
  unfold strlen in *. rewrite !length_substring by lia.
  split.
  - eexists _, _. split; [reflexivity|]. split; [reflexivity|].
    rewrite length_append, !length_substring by lia. lia.
  - destruct (Z.eqb_spec (Z.of_nat (Z.to_nat (k m - 1)) + Z.of_nat (Z.to_nat (k m)))
                (2 * k m - 1 - 2 ^ 32)); [lia | reflexivity].
Qed.

(** With k above 2^31, a run on a sequence that has a deletion point ends in
    the size assertion at its first event. *)
Lemma process_large_k seq ct m :
  2 ^ 31 < k m < 2 ^ 32 -> is_uint (delsize m) ->
  strlen seq <= string_max_size ->
  2 * k m + delsize m - 1 <= strlen seq ->
  limit m <= 0 \/ delcount m <= limit m ->
  fst (skip_draw (sampler m)) = false ->
  process seq ct m = Some (Err DelseqSizeAssertion).
Proof.
  intros Hk Hd Hmax Hlen Hlim Hkeep. pose proof Hd as [Hd0 Hd1].
  unfold string_max_size in Hmax.
  unfold process. rewrite uint_small by lia. cbn [process_loop].
  rewrite loop_test_true by lia.
  destruct (Z.leb_spec (k m - 1 + k m + delsize m) (strlen seq)); [|lia].
  unfold process_body, skip_nucl.
  apply limit_check_false in Hlim. rewrite Hlim.
  destruct (skip_draw (sampler m)) as [skip s]. cbn [fst] in Hkeep. subst skip.
  rewrite (delseq_at_ext _ m) by reflexivity.
  destruct (delseq_at_large_k m seq (k m - 1)) as [_ ->];
    try assumption; try (unfold in_window, string_max_size; lia).
  reflexivity.
Qed.

End LargeK.

Lemma length_replicate_char (n : nat) (c : ascii) :
  String.length (replicate_char n c) = n.
Proof. induction n as [|n IH]; cbn [replicate_char String.length]; congruence. Qed.

Lemma strlen_huge_sequence : strlen huge_sequence = 2 ^ 32 + 2.
Proof.
  unfold strlen, huge_sequence. rewrite length_replicate_char.
  apply Z2Nat.id. lia.
Qed.

(** C2, where the code departs from it. With k = 2^31 + 1 and a deletion
    size of 1, on a sequence of 2^32 + 2 bases: position 2^31 is a deletion
    point; the two flanks are there and together have 2k - 1 = 2^32 + 1
    characters; the [uint] expression [(2 * k) - 1] of the assertion is 1;
    the assertion on the size of the junction string fails, and [process]
    ends in it. *)
Theorem C2_size_assertion_fires_at_large_k :
  strlen huge_sequence = 2 ^ 32 + 2 /\
  k huge_k_mutator = 2 ^ 31 + 1 /\ delsize huge_k_mutator = 1 /\
  in_window huge_k_mutator huge_sequence (2 ^ 31) /\
  (exists l r,
     left_flank huge_k_mutator huge_sequence (2 ^ 31) = Some l /\
     right_flank huge_k_mutator huge_sequence (2 ^ 31) = Some r /\
     strlen (l ++ r) = 2 * k huge_k_mutator - 1) /\
  uint (uint (2 * k huge_k_mutator) - 1) = 1 /\
  delseq_at huge_k_mutator huge_sequence (2 ^ 31) = Err DelseqSizeAssertion /\
  process huge_sequence sample_table huge_k_mutator
    = Some (Err DelseqSizeAssertion).
Proof.
  pose proof strlen_huge_sequence as Hlen.
  assert (Hk : k huge_k_mutator = 2 ^ 31 + 1) by reflexivity.
  assert (Hd : delsize huge_k_mutator = 1) by reflexivity.
  assert (Hkr : 2 ^ 31 < k huge_k_mutator < 2 ^ 32) by (rewrite Hk; lia).
  assert (Hdr : is_uint (delsize huge_k_mutator))
    by (unfold is_uint; rewrite Hd; lia).
  assert (Hmax : strlen huge_sequence <= string_max_size)
    by (rewrite Hlen; unfold string_max_size; lia).
  assert (Hwin : in_window huge_k_mutator huge_sequence (2 ^ 31))
    by (unfold in_window; rewrite Hlen, Hk, Hd; lia).
  destruct (delseq_at_large_k huge_k_mutator huge_sequence (2 ^ 31) Hkr Hdr Hmax Hwin)
    as [Hflanks Hfail].
  split; [exact Hlen|]. split; [exact Hk|]. split; [exact Hd|].
  split; [exact Hwin|]. split; [exact Hflanks|].
  split; [rewrite assert_size_rhs_wraps by exact Hkr; rewrite Hk; lia|].
  split; [exact Hfail|].
  assert (Hpoint : 2 * k huge_k_mutator + delsize huge_k_mutator - 1
                   <= strlen huge_sequence) by (rewrite Hlen, Hk, Hd; lia).
  assert (Hlim : limit huge_k_mutator <= 0 \/
                 delcount huge_k_mutator <= limit huge_k_mutator)
    by (left; apply Z.le_refl).
  exact (process_large_k huge_sequence sample_table huge_k_mutator
           Hkr Hdr Hmax Hpoint Hlim eq_refl).
Qed.
